(** * Stock Split Analysis Dashboard: the computations of [stock_dashboard.py]

    The script reads one CSV file into a pandas DataFrame and renders,
    top to bottom, four KPI cards, two bar charts, a card per company and a
    formatted table.  This development embeds the DataFrame operations the
    script calls and the script's [load_data] and [main], and states the
    properties of the dashboard's numbers over that embedding.

    Numbers.  A float64 cell is read as the rational it denotes, or NaN.
    Comparisons of float64 values are exact; the additions and the division
    of a mean are rounded to the nearest float64, ties to even ([round64]).
    Infinities do not occur in a price file and are left out. *)

From Stdlib Require Import QArith Qabs Lia Lqa Sorted.
From stdpp Require Import base list strings gmap.

Open Scope string_scope.
Open Scope list_scope.

(** ** Cells, series and frames *)

(** A float64 value. *)
Inductive num :=
  | Fin (q : Q)
  | NaN.

(** The format specifications of the script's f-strings. *)
Inductive fmt :=
  | Dollars0   (* f"${x:,.0f}"  *)
  | Dollars2   (* f"${x:,.2f}"  *)
  | Billions1  (* f"${x:.1f}B"  *)
  | Fixed1     (* f"{x:.1f}"    *)
  | Percent2.  (* f"{x:.2f}%"   *)

(** A cell of a DataFrame: a number, a string of the file, or the string an
    f-string made of a number (kept symbolic: the format and its argument). *)
Inductive cell :=
  | Num (x : num)
  | Str (s : string)
  | Text (f : fmt) (x : num).

(** Python exceptions the script can meet.  [ParserError] stands for what
    pandas' CSV parser raises on text it cannot read (ParserError,
    EmptyDataError); [StopException] is what [st.stop()] raises to end the
    run. *)
Inductive exn :=
  | FileNotFoundError
  | KeyError (key : string)
  | TypeError
  | ValueError
  | ParserError
  | SystemError
  | StopException.

#[global] Instance exn_eq_dec : EqDecision exn.
Proof. solve_decision. Defined.

Inductive outcome (A : Type) :=
  | Ok (a : A)
  | Raise (e : exn).
Arguments Ok {A} a.
Arguments Raise {A} e.

Definition obind {A B} (m : outcome A) (k : A -> outcome B) : outcome B :=
  match m with
  | Ok a => k a
  | Raise e => Raise e
  end.

(** A Series: row labels and values, position by position. *)
Record Series := mkSeries {
  s_index : list nat;
  s_values : list cell
}.

(** A DataFrame: row labels and named columns, in file order. *)
Record DataFrame := mkFrame {
  index : list nat;
  columns : list (string * list cell)
}.

(** The frame [pd.read_csv] builds has the labels 0 .. n-1 and columns of one
    length. *)
Definition range_indexed (df : DataFrame) : Prop :=
  index df = seq 0 (length (index df)).

Definition rectangular (df : DataFrame) : Prop :=
  Forall (fun c => length (snd c) = length (index df)) (columns df).

Fixpoint assoc (k : string) (cs : list (string * list cell)) : option (list cell) :=
  match cs with
  | [] => None
  | (k', v) :: cs' => if String.eqb k k' then Some v else assoc k cs'
  end.

(** [df[col]] *)
Definition getitem (df : DataFrame) (col : string) : outcome Series :=
  match assoc col (columns df) with
  | Some vs => Ok (mkSeries (index df) vs)
  | None => Raise (KeyError col)
  end.

(** [len(df)] *)
Definition len (df : DataFrame) : nat := length (index df).

(** Python's [x == 'YES'] on a cell: only a string can equal a string. *)
Definition eq_str (c : cell) (s : string) : bool :=
  match c with
  | Str s' => String.eqb s' s
  | _ => false
  end.

(** [series == s], element by element. *)
Definition series_eq (sr : Series) (s : string) : list bool :=
  map (fun c => eq_str c s) (s_values sr).

Fixpoint select {A} (mask : list bool) (xs : list A) : list A :=
  match mask, xs with
  | true :: m, x :: xs' => x :: select m xs'
  | false :: m, _ :: xs' => select m xs'
  | _, _ => []
  end.

(** [df[mask]]: the rows where the mask is True, labels kept. *)
Definition getitem_mask (df : DataFrame) (mask : list bool) : DataFrame :=
  mkFrame (select mask (index df))
          (map (fun c => (fst c, select mask (snd c))) (columns df)).

(** ** Reductions of a numeric series *)

Definition as_num (c : cell) : option num :=
  match c with
  | Num x => Some x
  | _ => None
  end.

(** The float64 view of a column; an object column (one holding strings) has
    none, and [mean] raises TypeError on it.  [max], [idxmax] and
    [sort_values] are given the same answer for such a column: [main] cannot
    reach them with one, the mean of line 90 comes first. *)
Definition as_float64 (vs : list cell) : outcome (list num) :=
  match mapM as_num vs with
  | Some xs => Ok xs
  | None => Raise TypeError
  end.

(** skipna: the values that are not NaN. *)
Fixpoint finite (xs : list num) : list Q :=
  match xs with
  | [] => []
  | Fin q :: xs' => q :: finite xs'
  | NaN :: xs' => finite xs'
  end.

(** The integer nearest to p / d for p >= 0 < d, a tie going to the even
    one. *)
Definition round_half_even (p d : Z) : Z :=
  let fl := (p / d)%Z in
  match (2 * (p mod d) ?= d)%Z with
  | Lt => fl
  | Gt => (fl + 1)%Z
  | Eq => if Z.even fl then fl else (fl + 1)%Z
  end.

(** The float64 nearest to a rational: 53 significant bits, the last place
    no finer than 2^-1074 (subnormals), ties to even. *)
Definition round64 (q : Q) : Q :=
  let n := Qnum q in
  let d := Zpos (Qden q) in
  if (n =? 0)%Z then 0%Q else
  let an := Z.abs n in
  let e0 := (Z.log2 an - Z.log2 d)%Z in
  let ge := if (0 <=? e0)%Z then (d * 2 ^ e0 <=? an)%Z
            else (d <=? an * 2 ^ (- e0))%Z in
  let e := if ge then e0 else (e0 - 1)%Z in
  let u := Z.max (e - 52) (-1074) in
  let r := if (0 <=? u)%Z then round_half_even an (d * 2 ^ u)
           else round_half_even (an * 2 ^ (- u)) d in
  let s := if (n <? 0)%Z then (- r)%Z else r in
  if (0 <=? u)%Z then inject_Z (s * 2 ^ u) else (s # Z.to_pos (2 ^ (- u))).

(** The float64 sum of a column, added from left to right from 0, each
    addition rounded: the order in which a column of fewer than eight values
    is summed (the file of the page has five). *)
Definition fsum (qs : list Q) : Q :=
  fold_left (fun acc x => round64 (acc + x)) qs 0%Q.

(** [series.mean()]: the float64 sum of the non-NaN values divided, in
    float64, by their count; NaN when there is none. *)
Definition mean (sr : Series) : outcome num :=
  obind (as_float64 (s_values sr)) (fun xs =>
    match finite xs with
    | [] => Ok NaN
    | q :: qs =>
        Ok (Fin (round64 (fsum (q :: qs) / inject_Z (Z.of_nat (length (q :: qs))))))
    end).

Definition Qmaxl (q : Q) (qs : list Q) : Q :=
  fold_left (fun m x => if Qle_bool x m then m else x) qs q.

(** [series.max()]: the largest non-NaN value, NaN when there is none. *)
Definition max (sr : Series) : outcome num :=
  obind (as_float64 (s_values sr)) (fun xs =>
    match finite xs with
    | [] => Ok NaN
    | q :: qs => Ok (Fin (Qmaxl q qs))
    end).

(** The scan of argmax: the best (label, value) so far is replaced only by a
    strictly larger value, so the first occurrence of the maximum wins; NaN
    is skipped. *)
Fixpoint argmax_from (best : option (nat * Q)) (ls : list nat) (xs : list num)
  : option (nat * Q) :=
  match ls, xs with
  | l :: ls', Fin q :: xs' =>
      match best with
      | None => argmax_from (Some (l, q)) ls' xs'
      | Some (lb, qb) =>
          if Qle_bool q qb then argmax_from best ls' xs'
          else argmax_from (Some (l, q)) ls' xs'
      end
  | _ :: ls', NaN :: xs' => argmax_from best ls' xs'
  | _, _ => best
  end.

(** [series.idxmax()]: the label of the first occurrence of the maximum.
    An empty series raises ValueError ("attempt to get argmax of an empty
    sequence"); a series of NaN only gives NaN, here [None]. *)
Definition idxmax (sr : Series) : outcome (option nat) :=
  match s_values sr with
  | [] => Raise ValueError
  | _ =>
      obind (as_float64 (s_values sr)) (fun xs =>
        Ok (option_map fst (argmax_from None (s_index sr) xs)))
  end.

Fixpoint position (l : nat) (ls : list nat) : option nat :=
  match ls with
  | [] => None
  | l' :: ls' => if Nat.eqb l l' then Some 0%nat else option_map S (position l ls')
  end.

(** [df.loc[label, col]] for a frame with distinct labels: the column is
    looked up first, then the row label. *)
Definition loc (df : DataFrame) (label : option nat) (col : string) : outcome cell :=
  obind (getitem df col) (fun sr =>
    match label with
    | None => Raise (KeyError "nan")
    | Some l =>
        match position l (index df) with
        | None => Raise (KeyError "label")
        | Some i =>
            match s_values sr !! i with
            | Some c => Ok c
            | None => Raise (KeyError "label")
            end
        end
    end).

(** ** Sorting, row iteration, formatting *)

(** The order of the rows after sorting: positions by ascending key, a key
    going behind the keys equal to it, NaN positions at the end. *)
Fixpoint insert_by (k : Q) (i : nat) (acc : list (Q * nat)) : list (Q * nat) :=
  match acc with
  | [] => [(k, i)]
  | (k', i') :: r =>
      if Qle_bool k' k then (k', i') :: insert_by k i r
      else (k, i) :: (k', i') :: r
  end.

Fixpoint sort_keys (i : nat) (xs : list num) (acc : list (Q * nat)) (nans : list nat)
  : list nat :=
  match xs with
  | [] => map snd acc ++ nans
  | Fin q :: xs' => sort_keys (S i) xs' (insert_by q i acc) nans
  | NaN :: xs' => sort_keys (S i) xs' acc (nans ++ [i])
  end.

Definition take_rows {A} (order : list nat) (xs : list A) : list A :=
  omap (fun i => xs !! i) order.

(** [df.sort_values(col, ascending=True)]: a new frame, rows in ascending
    order of the column, NaN last.  Equal keys are kept in file order here;
    pandas' default sort leaves their order open, and no property below
    fixes it. *)
Definition sort_values (df : DataFrame) (col : string) : outcome DataFrame :=
  obind (getitem df col) (fun sr =>
  obind (as_float64 (s_values sr)) (fun xs =>
    let order := sort_keys 0 xs [] [] in
    Ok (mkFrame (take_rows order (index df))
                (map (fun c => (fst c, take_rows order (snd c))) (columns df))))).

(** A row as [iterrows] yields it: the cell of every column at one position. *)
Definition row := list (string * cell).

Fixpoint row_at (cs : list (string * list cell)) (i : nat) : row :=
  match cs with
  | [] => []
  | (k, vs) :: cs' =>
      match vs !! i with
      | Some v => (k, v) :: row_at cs' i
      | None => row_at cs' i
      end
  end.

(** [df.iterrows()] *)
Definition iterrows (df : DataFrame) : list (nat * row) :=
  imap (fun i l => (l, row_at (columns df) i)) (index df).

Fixpoint row_assoc (k : string) (r : row) : option cell :=
  match r with
  | [] => None
  | (k', v) :: r' => if String.eqb k k' then Some v else row_assoc k r'
  end.

(** [row[col]] *)
Definition row_get (r : row) (col : string) : outcome cell :=
  match row_assoc col r with
  | Some c => Ok c
  | None => Raise (KeyError col)
  end.

(** An f-string with a float format: a number (NaN too) is formatted, a
    string raises ValueError ("Unknown format code 'f'"). *)
Definition format (f : fmt) (c : cell) : outcome cell :=
  match c with
  | Num x => Ok (Text f x)
  | _ => Raise ValueError
  end.

Fixpoint format_all (f : fmt) (cs : list cell) : outcome (list cell) :=
  match cs with
  | [] => Ok []
  | c :: cs' =>
      obind (format f c) (fun t =>
      obind (format_all f cs') (fun ts => Ok (t :: ts)))
  end.

(** ** What the page shows *)

(** One of the three dicts the comparison loop appends per company. *)
Record ScenarioRow := mkScenario {
  Company : cell;
  Scenario : string;
  Price : cell
}.

Inductive side := col1 | col2.

Inductive widget :=
  | Markdown (what : string)
  | ErrorBox (msg : string)
  | KpiCompanies (shown : nat)
  | KpiRecommend (recommend_count : nat)
  | KpiAverage (avg_price : cell)
  | KpiHighest (max_ticker : cell) (max_price : cell)
  | PriceChart (x y : list cell) (marker_color : list string) (text : list cell)
  | ComparisonChart (comp_df : list ScenarioRow)
  | Card (where_ : side) (color : string) (company ticker price pe cap : cell)
         (recommendation_text : string)
  | Table (display_df : DataFrame) (styles : list string).

(** ** The run: file system, cache, objects, page *)

(** What [pd.read_csv] makes of a file: the table it parses, or text it
    cannot read.  The parsing of CSV text is pandas' and is not modelled. *)
Inductive file :=
  | Parsed (df : DataFrame)
  | Malformed.

(** [fs] maps a path to its file; [cache] is the process-wide store of
    [@st.cache_data]; [heap] holds the DataFrame objects made from the loaded
    table (the data, its sorted copy, its formatted copy), a reference being
    a position in it; [screen] is the page so far. *)
Record world := mkWorld {
  fs : gmap string file;
  cache : option DataFrame;
  heap : list DataFrame;
  screen : list widget
}.

Abbreviation ref := nat.

Definition M (A : Type) : Type := world -> outcome A * world.

Definition ret {A} (a : A) : M A := fun w => (Ok a, w).

Definition raise {A} (e : exn) : M A := fun w => (Raise e, w).

Definition bind {A B} (m : M A) (k : A -> M B) : M B :=
  fun w =>
    match m w with
    | (Ok a, w') => k a w'
    | (Raise e, w') => (Raise e, w')
    end.

Notation "'let!' x ':=' m 'in' k" := (bind m (fun x => k))
  (at level 10, x name, m at level 100, k at level 200, only parsing).
Notation "m >> k" := (bind m (fun _ => k))
  (at level 200, right associativity, only parsing).

Definition lift {A} (o : outcome A) : M A := fun w => (o, w).

(** [try: m except e: h] *)
Definition try_except {A} (m : M A) (e : exn) (h : M A) : M A :=
  fun w =>
    match m w with
    | (Raise e', w') => if decide (e' = e) then h w' else (Raise e', w')
    | r => r
    end.

Definition emit (x : widget) : M unit :=
  fun w => (Ok tt, mkWorld (fs w) (cache w) (heap w) (screen w ++ [x])).

(** A new DataFrame object. *)
Definition new (df : DataFrame) : M ref :=
  fun w => (Ok (length (heap w)),
            mkWorld (fs w) (cache w) (heap w ++ [df]) (screen w)).

(** The frame a reference denotes.  A reference of the script is always
    bound; the other case is kept as SystemError. *)
Definition deref (r : ref) : M DataFrame :=
  fun w =>
    match heap w !! r with
    | Some df => (Ok df, w)
    | None => (Raise SystemError, w)
    end.

(** [df[col] = values] on the object itself: the column is replaced where
    it stands (the script assigns existing columns only). *)
Definition set_column (col : string) (vs : list cell) (df : DataFrame) : DataFrame :=
  mkFrame (index df)
          (map (fun c => if String.eqb (fst c) col then (fst c, vs) else c) (columns df)).

Definition setitem (r : ref) (col : string) (vs : list cell) : M unit :=
  fun w =>
    match heap w !! r with
    | Some df =>
        (Ok tt, mkWorld (fs w) (cache w) (<[r := set_column col vs df]> (heap w)) (screen w))
    | None => (Raise SystemError, w)
    end.

(** ** [load_data] *)

Definition csv_path : string := "Updated_Stock_Split_Analysis.csv".

(** [pd.read_csv(path)]: the parsed table, FileNotFoundError without a
    file.  No column is asked for and no type is declared. *)
Definition read_csv (path : string) : M DataFrame :=
  fun w =>
    match fs w !! path with
    | Some (Parsed df) => (Ok df, w)
    | Some Malformed => (Raise ParserError, w)
    | None => (Raise FileNotFoundError, w)
    end.

(** [@st.cache_data] on a function without arguments: a stored value is
    handed out as a fresh copy; otherwise the body runs and its value is
    stored.  An exception stores nothing. *)
Definition cache_data (body : M DataFrame) : M ref :=
  fun w =>
    match cache w with
    | Some df => new df w
    | None =>
        match body w with
        | (Ok df, w') => new df (mkWorld (fs w') (Some df) (heap w') (screen w'))
        | (Raise e, w') => (Raise e, w')
        end
    end.

Definition load_data : M ref :=
  cache_data (let! df := read_csv csv_path in ret df).

(** ** [main], block by block *)

(** Line 81: [len(data[data['Split_Recommendation'] == 'YES'])]. *)
Definition recommend_count (data : DataFrame) : outcome nat :=
  obind (getitem data "Split_Recommendation") (fun sr =>
    Ok (len (getitem_mask data (series_eq sr "YES")))).

(** Line 90: [data['Price_USD'].mean()]. *)
Definition avg_price (data : DataFrame) : outcome num :=
  obind (getitem data "Price_USD") mean.

(** Line 99: [data['Price_USD'].max()]. *)
Definition max_price (data : DataFrame) : outcome num :=
  obind (getitem data "Price_USD") max.

(** Line 100: [data.loc[data['Price_USD'].idxmax(), 'Ticker']]. *)
Definition max_ticker (data : DataFrame) : outcome cell :=
  obind (getitem data "Price_USD") (fun sr =>
  obind (idxmax sr) (fun label =>
    loc data label "Ticker")).

(** Lines 70-106: the four KPI cards.  The first shows the literal 5. *)
Definition kpi_row (data : ref) : M unit :=
  emit (KpiCompanies 5) >>
  let! df := deref data in
  let! n := lift (recommend_count df) in
  emit (KpiRecommend n) >>
  let! df := deref data in
  let! avg := lift (avg_price df) in
  emit (KpiAverage (Text Dollars0 avg)) >>
  let! df := deref data in
  let! mx := lift (max_price df) in
  let! df := deref data in
  let! tk := lift (max_ticker df) in
  emit (KpiHighest tk (Text Dollars0 mx)).

(** Line 122: the colour of each bar. *)
Definition colors (sr : Series) : list string :=
  map (fun x => if eq_str x "YES" then "#27ae60" else "#3498db") (s_values sr).

(** Lines 114-147: the chart of current prices, over a sorted copy. *)
Definition price_chart (data : ref) : M unit :=
  let! df := deref data in
  let! sorted := lift (sort_values df "Price_USD") in
  let! data_sorted := new sorted in
  let! ds := deref data_sorted in
  let! rec_ := lift (getitem ds "Split_Recommendation") in
  let! x := lift (getitem ds "Price_USD") in
  let! y := lift (getitem ds "Ticker") in
  let! px := lift (getitem ds "Price_USD") in
  let! text := lift (format_all Dollars0 (s_values px)) in
  emit (PriceChart (s_values x) (s_values y) (colors rec_) text).

(** Lines 156-160: the three dicts of one row, fields read left to right. *)
Definition scenarios (r : row) : outcome (list ScenarioRow) :=
  obind (row_get r "Company") (fun c1 =>
  obind (row_get r "Price_USD") (fun p =>
  obind (row_get r "Company") (fun c2 =>
  obind (row_get r "Price_After_10to1") (fun p10 =>
  obind (row_get r "Company") (fun c3 =>
  obind (row_get r "Price_After_20to1") (fun p20 =>
    Ok [ mkScenario c1 "Current" p;
         mkScenario c2 "10:1 Split" p10;
         mkScenario c3 "20:1 Split" p20 ])))))).

(** Lines 154-160: [comparison_data], extended row after row. *)
Fixpoint comparison_loop (rows : list (nat * row)) (comparison_data : list ScenarioRow)
  : outcome (list ScenarioRow) :=
  match rows with
  | [] => Ok comparison_data
  | (_, r) :: rows' =>
      obind (scenarios r) (fun three =>
        comparison_loop rows' (comparison_data ++ three))
  end.

Definition comparison_data (data : DataFrame) : outcome (list ScenarioRow) :=
  comparison_loop (iterrows data) [].

(** Lines 149-189: the chart of the split scenarios.  [comp_df] of line
    162 holds the rows of [comparison_data] and is kept as that list, a value
    of the chart; it is not made an object of the heap. *)
Definition comparison_chart (data : ref) : M unit :=
  let! df := deref data in
  let! comp_df := lift (comparison_data df) in
  emit (ComparisonChart comp_df).

(** Lines 215-228: one card per company, left and right by the parity of the
    row label; the card's fields are read in the order of the f-string. *)
Definition card (idx : nat) (r : row) : outcome widget :=
  obind (row_get r "Split_Recommendation") (fun s1 =>
  let color := if eq_str s1 "YES" then "#27ae60" else "#e74c3c" in
  obind (row_get r "Split_Recommendation") (fun s2 =>
  let recommendation_text :=
    if eq_str s2 "YES" then "✅ SPLIT: YES" else "❌ SPLIT: NO" in
  obind (row_get r "Company") (fun company =>
  obind (row_get r "Ticker") (fun ticker =>
  obind (row_get r "Price_USD") (fun p =>
  obind (format Dollars2 p) (fun price =>
  obind (row_get r "PE_Ratio") (fun e =>
  obind (format Fixed1 e) (fun pe =>
  obind (row_get r "Market_Cap_Billions") (fun m =>
  obind (format Fixed1 m) (fun cap =>
    Ok (Card (if Nat.eqb (idx mod 2) 0 then col1 else col2)
             color company ticker price pe cap recommendation_text))))))))))).

Fixpoint cards (rows : list (nat * row)) : M unit :=
  match rows with
  | [] => ret tt
  | (idx, r) :: rows' =>
      let! c := lift (card idx r) in
      emit c >>
      cards rows'
  end.

Definition company_cards (data : ref) : M unit :=
  let! df := deref data in
  cards (iterrows df).

(** Lines 239-245: [display_df[col] = display_df[col].apply(lambda x: ...)]. *)
Definition format_column (display_df : ref) (col : string) (f : fmt) : M unit :=
  let! df := deref display_df in
  let! sr := lift (getitem df col) in
  let! vs := lift (format_all f (s_values sr)) in
  setitem display_df col vs.

Definition currency_cols : list string :=
  ["Price_USD"; "Price_After_10to1"; "Price_After_20to1"].

Fixpoint format_columns (display_df : ref) (cols : list string) (f : fmt) : M unit :=
  match cols with
  | [] => ret tt
  | col :: cols' =>
      format_column display_df col f >>
      format_columns display_df cols' f
  end.

(** Lines 248-252. *)
Definition highlight_recommendation (val : cell) : string :=
  if eq_str val "YES"
  then "background-color: #d4edda; color: #155724; font-weight: bold;"
  else "background-color: #f8d7da; color: #721c24; font-weight: bold;".

(** Lines 235-256: the table, formatted on a copy of the data. *)
Definition detail_table (data : ref) : M unit :=
  let! df := deref data in
  let! display_df := new df in
  format_columns display_df currency_cols Dollars2 >>
  format_column display_df "Market_Cap_Billions" Billions1 >>
  format_column display_df "PE_Ratio" Fixed1 >>
  format_column display_df "Dividend_Yield" Percent2 >>
  let! shown := deref display_df in
  let! sr := lift (getitem shown "Split_Recommendation") in
  emit (Table shown (map highlight_recommendation (s_values sr))).

(** Lines 108-260: everything [main] does with the loaded data.  Page
    spacing and section headings are left out. *)
Definition render (data : ref) : M unit :=
  kpi_row data >>
  price_chart data >>
  comparison_chart data >>
  emit (Markdown "insights") >>
  company_cards data >>
  detail_table data >>
  emit (Markdown "footer").

Definition missing_file_message : string :=
  "⚠️ Please ensure 'Updated_Stock_Split_Analysis.csv' is in the same directory as this script.".

(** Lines 57-260. *)
Definition main : M unit :=
  emit (Markdown "title") >>
  emit (Markdown "subtitle: Analysis of 5 S&P 500 Companies") >>
  let! data :=
    try_except load_data FileNotFoundError
      (emit (ErrorBox missing_file_message) >> raise StopException) in
  render data.

(** A first visit: no cache, no object, an empty page. *)
Definition fresh (files : gmap string file) : world :=
  mkWorld files None [] [].

(** A frame as [read_csv] builds it from rows of cells. *)
Definition frame_of (names : list string) (rows : list (list cell)) : DataFrame :=
  mkFrame (seq 0 (length rows))
          (imap (fun j name => (name, omap (fun r => r !! j) rows)) names).

Definition all_columns : list string :=
  ["Ticker"; "Company"; "Price_USD"; "PE_Ratio"; "Market_Cap_Billions";
   "Dividend_Yield"; "Split_Recommendation"; "Price_After_10to1";
   "Price_After_20to1"].

(** The concrete scenario of the specification, with the two split columns
    the script reads from the file. *)
Definition two_companies : DataFrame :=
  frame_of all_columns
    [ [Str "AMZN"; Str "Amazon"; Num (Fin 3584); Num (Fin (582 # 10));
       Num (Fin 1850); Num (Fin 0); Str "YES"; Num (Fin (3584 # 10));
       Num (Fin (1792 # 10))];
      [Str "KO"; Str "Coca-Cola"; Num (Fin (625 # 10)); Num (Fin (251 # 10));
       Num (Fin 270); Num (Fin (295 # 100)); Str "NO"; Num (Fin (625 # 100));
       Num (Fin (3125 # 1000))] ].

Definition company (ticker name : string) (price pe cap yield : Q) (rec_ : string)
  (after10 after20 : Q) : list cell :=
  [Str ticker; Str name; Num (Fin price); Num (Fin pe); Num (Fin cap);
   Num (Fin yield); Str rec_; Num (Fin after10); Num (Fin after20)].

(** A file whose split columns are not the price over 10 and over 20. *)
Definition mispriced : DataFrame :=
  frame_of all_columns [company "ACME" "Acme" 100 20 50 1 "NO" 7 5].

(** A file whose split columns exceed the price. *)
Definition inverted : DataFrame :=
  frame_of all_columns [company "ACME" "Acme" 100 20 50 1 "NO" 200 300].

(** A file with the header line only. *)
Definition empty_portfolio : DataFrame := frame_of all_columns [].

(** The two companies without the PE_Ratio column. *)
Definition no_pe_ratio : DataFrame :=
  frame_of
    ["Ticker"; "Company"; "Price_USD"; "Market_Cap_Billions"; "Dividend_Yield";
     "Split_Recommendation"; "Price_After_10to1"; "Price_After_20to1"]
    [ [Str "AMZN"; Str "Amazon"; Num (Fin 3584); Num (Fin 1850); Num (Fin 0);
       Str "YES"; Num (Fin (3584 # 10)); Num (Fin (1792 # 10))];
      [Str "KO"; Str "Coca-Cola"; Num (Fin (625 # 10)); Num (Fin 270);
       Num (Fin (295 # 100)); Str "NO"; Num (Fin (625 # 100));
       Num (Fin (3125 # 1000))] ].



(** Recommendation cells that are not the string YES. *)
Definition loose_flags : DataFrame :=
  frame_of ["Ticker"; "Split_Recommendation"]
    [ [Str "A"; Str "YES"]; [Str "B"; Str "yes"]; [Str "C"; Str "Y"];
      [Str "D"; Num NaN]; [Str "E"; Str "YES "]; [Str "F"; Num (Fin 1)] ].

(** Two companies at the same highest price. *)
Definition tied : DataFrame :=
  frame_of all_columns
    [ company "LOW" "Low" 50 20 50 1 "NO" 5 (5 # 2);
      company "ONE" "First" 900 20 50 1 "YES" 90 45;
      company "TWO" "Second" 900 20 50 1 "YES" 90 45 ].

Definition on_disk (df : DataFrame) : gmap string file :=
  <[csv_path := Parsed df]> ∅.

(** The tolerance of the specification. *)
Definition eps : Q := 1 # 1000000000.

Definition within (tol a b : Q) : Prop := (Qabs (a - b) <= tol)%Q.

(** The card the page shows for the number of companies, if any. *)
Fixpoint company_count (page : list widget) : option nat :=
  match page with
  | [] => None
  | KpiCompanies s :: _ => Some s
  | _ :: page' => company_count page'
  end.

(** The card the page shows for the recommended splits, if any. *)
Fixpoint split_recommended_count (page : list widget) : option nat :=
  match page with
  | [] => None
  | KpiRecommend n :: _ => Some n
  | _ :: page' => split_recommended_count page'
  end.

(** A column of finite prices. *)
Definition prices (qs : list Q) : list cell := map (fun q => Num (Fin q)) qs.

#[global] Instance Q_eq_dec : EqDecision Q.
Proof. solve_decision. Defined.

#[global] Instance num_eq_dec : EqDecision num.
Proof. solve_decision. Defined.

#[global] Instance fmt_eq_dec : EqDecision fmt.
Proof. solve_decision. Defined.

#[global] Instance cell_eq_dec : EqDecision cell.
Proof. solve_decision. Defined.

(** The rows expected of the comparison loop, written from the four columns
    it reads: three per company, in file order. *)
Fixpoint scenario_table (names p a b : list cell) : list ScenarioRow :=
  match names, p, a, b with
  | c :: names', x :: p', y :: a', z :: b' =>
      mkScenario c "Current" x :: mkScenario c "10:1 Split" y
        :: mkScenario c "20:1 Split" z :: scenario_table names' p' a' b'
  | _, _, _, _ => []
  end.

(** The three rows of the [i]-th company in a comparison table. *)
Definition group (i : nat) (rows : list ScenarioRow) : list ScenarioRow :=
  take 3 (drop (3 * i) rows).

(** The specification's reading of the split prices: every company's 10:1
    and 20:1 rows carry the current price over 10 and over 20, within the
    tolerance. *)
Definition derives_by_division (data : DataFrame) : Prop :=
  forall rows i c1 c2 c3 q x y,
    comparison_data data = Ok rows ->
    group i rows = [mkScenario c1 "Current" (Num (Fin q));
                    mkScenario c2 "10:1 Split" x;
                    mkScenario c3 "20:1 Split" y] ->
    (0 < q)%Q ->
    exists q10 q20, x = Num (Fin q10) /\ y = Num (Fin q20) /\
      within eps q10 (q / 10) /\ within eps q20 (q / 20).

(** The specification's ordering of the three prices of a company. *)
Definition split_prices_ordered (data : DataFrame) : Prop :=
  forall rows i c1 c2 c3 q q10 q20,
    comparison_data data = Ok rows ->
    group i rows = [mkScenario c1 "Current" (Num (Fin q));
                    mkScenario c2 "10:1 Split" (Num (Fin q10));
                    mkScenario c3 "20:1 Split" (Num (Fin q20))] ->
    (0 < q)%Q ->
    (q20 < q10)%Q /\ (q10 < q)%Q.

(** [keeps n w w']: from [w] to [w'] the files and the cache are the same,
    the first [n] objects hold the same frames, no object is dropped and
    the page has only grown. *)

Definition keeps (n : nat) (w w' : world) : Prop :=
  fs w' = fs w /\ cache w' = cache w /\
  take n (heap w') = take n (heap w) /\
  length (heap w) <= length (heap w') /\
  exists more, screen w' = screen w ++ more.

(** [m] keeps the first [n] objects whenever they exist, and a value it
    returns satisfies [post]. *)
Definition safe {A} (n : nat) (m : M A) (post : A -> Prop) : Prop :=
  forall w, n <= length (heap w) ->
    keeps n w (snd (m w)) /\ forall a, fst (m w) = Ok a -> post a.

(** The page only grows, and starts with a given widget. *)
Definition grows {A} (m : M A) : Prop :=
  forall w, exists more, screen (snd (m w)) = screen w ++ more.

Definition first_shows {A} (x : widget) (m : M A) : Prop :=
  forall w, exists rest, screen (snd (m w)) = screen w ++ x :: rest.

(** A file without the Split_Recommendation column. *)
Definition no_recommendation : DataFrame :=
  frame_of ["Ticker"; "Price_USD"] [ [Str "A"; Num (Fin 10)] ].

(** A file whose prices pandas could not read as numbers (a thousands
    separator in a quoted cell makes the whole column text). *)
Definition text_price : DataFrame :=
  frame_of ["Ticker"; "Price_USD"; "Split_Recommendation"]
    [ [Str "A"; Str "3,584.00"; Str "YES"]; [Str "B"; Str "62.50"; Str "NO"] ].

(** A file without the Price_After_10to1 column. *)
Definition no_split_column : DataFrame :=
  frame_of ["Company"; "Price_USD"; "Price_After_20to1"]
    [ [Str "Acme"; Num (Fin 100); Num (Fin 5)] ].

(** The world after a first load of a file. *)
Definition loaded (df : DataFrame) : world :=
  snd (load_data (fresh (on_disk df))).

(** The order of two sort keys. *)
Definition key_le (a b : Q * nat) : Prop := (fst a <= fst b)%Q.

(** A file without the Ticker column. *)
Definition no_ticker : DataFrame :=
  frame_of ["Company"; "Price_USD"; "Split_Recommendation"]
    [ [Str "Acme"; Num (Fin 100); Str "YES"];
      [Str "Bolt"; Num (Fin 40); Str "NO"] ].

(** ** Worlds after a step *)

(** The world with more widgets on the page. *)
Definition show (xs : list widget) (w : world) : world :=
  mkWorld (fs w) (cache w) (heap w) (screen w ++ xs).

(** The world with one more object. *)
Definition alloc (df : DataFrame) (w : world) : world :=
  mkWorld (fs w) (cache w) (heap w ++ [df]) (screen w).

(** The world whose files have been replaced (a file edited or deleted
    between two runs). *)
Definition with_files (files : gmap string file) (w : world) : world :=
  mkWorld files (cache w) (heap w) (screen w).

(** The head of every page. *)
Definition page_head : list widget :=
  [Markdown "title"; Markdown "subtitle: Analysis of 5 S&P 500 Companies"].

(** A column pandas reads as float64: numbers and NaN only. *)
Definition is_num (c : cell) : bool :=
  match c with
  | Num _ => true
  | _ => false
  end.

Definition numeric (vs : list cell) : Prop := forallb is_num vs = true.

(** What an f-string makes of a numeric cell. *)
Definition text_of (f : fmt) (c : cell) : cell :=
  match c with
  | Num x => Text f x
  | _ => c
  end.

(** Ascending order of a list of cells holding finite numbers. *)
Fixpoint ascending (cs : list cell) : Prop :=
  match cs with
  | Num (Fin q) :: ((Num (Fin q') :: _) as rest) => (q <= q')%Q /\ ascending rest
  | _ => True
  end.

(** The card expected for a record, written from its cells: left for an
    even row label, green and "✅ SPLIT: YES" for the flag YES, red and
    "❌ SPLIT: NO" otherwise. *)
Definition card_of (l : nat) (flag company ticker p e m : cell) : widget :=
  Card (if Nat.even l then col1 else col2)
       (if decide (flag = Str "YES") then "#27ae60" else "#e74c3c")
       company ticker (text_of Dollars2 p) (text_of Fixed1 e) (text_of Fixed1 m)
       (if decide (flag = Str "YES") then "✅ SPLIT: YES" else "❌ SPLIT: NO").

Fixpoint card_table (labels : list nat) (flags names tickers ps es ms : list cell)
  : list widget :=
  match labels, flags, names, tickers, ps, es, ms with
  | l :: labels', f :: flags', n :: names', t :: tickers', p :: ps', e :: es',
    m :: ms' =>
      card_of l f n t p e m :: card_table labels' flags' names' tickers' ps' es' ms'
  | _, _, _, _, _, _, _ => []
  end.

(** The world with an object overwritten. *)
Definition store (r : ref) (df : DataFrame) (w : world) : world :=
  mkWorld (fs w) (cache w) (<[r := df]> (heap w)) (screen w).

(** A frame with one column formatted, as an assignment of lines 239-245
    leaves it. *)
Definition format_in (col : string) (f : fmt) (d : DataFrame) : DataFrame :=
  match assoc col (columns d) with
  | Some vs => set_column col (map (text_of f) vs) d
  | None => d
  end.

(** The frame of the table after the six assignments. *)
Definition display_of (df : DataFrame) : DataFrame :=
  format_in "Dividend_Yield" Percent2
    (format_in "PE_Ratio" Fixed1
       (format_in "Market_Cap_Billions" Billions1
          (format_in "Price_After_20to1" Dollars2
             (format_in "Price_After_10to1" Dollars2
                (format_in "Price_USD" Dollars2 df))))).

(** The format the table gives a column, by its name. *)
Definition display_format (k : string) : option fmt :=
  if decide (k = "Price_USD") then Some Dollars2
  else if decide (k = "Price_After_10to1") then Some Dollars2
  else if decide (k = "Price_After_20to1") then Some Dollars2
  else if decide (k = "Market_Cap_Billions") then Some Billions1
  else if decide (k = "PE_Ratio") then Some Fixed1
  else if decide (k = "Dividend_Yield") then Some Percent2
  else None.

Definition display_cells (k : string) (vs : list cell) : list cell :=
  match display_format k with
  | Some f => map (text_of f) vs
  | None => vs
  end.

(** The rows of a frame taken in a given order of positions. *)
Definition sorted_by (order : list nat) (df : DataFrame) : DataFrame :=
  mkFrame (take_rows order (index df))
          (map (fun c => (fst c, take_rows order (snd c))) (columns df)).

(** The price chart of the records taken in a given order. *)
Definition price_chart_of (order : list nat) (qs : list Q) (tickers flags : list cell)
  : widget :=
  PriceChart (take_rows order (prices qs)) (take_rows order tickers)
    (map (fun x => if eq_str x "YES" then "#27ae60" else "#3498db")
       (take_rows order flags))
    (map (text_of Dollars0) (take_rows order (prices qs))).

(** The page under the head for a file that renders to the end. *)
Definition page_body (n : nat) (avg mx : num) (tk : cell) (chart : widget)
    (comp_df : list ScenarioRow) (cs : list widget) (shown : DataFrame)
    (styles : list string) : list widget :=
  [KpiCompanies 5; KpiRecommend n; KpiAverage (Text Dollars0 avg);
   KpiHighest tk (Text Dollars0 mx); chart; ComparisonChart comp_df;
   Markdown "insights"] ++ cs ++ [Table shown styles; Markdown "footer"].

(** The world with a table in the cache. *)
Definition cached (df : DataFrame) (w : world) : world :=
  mkWorld (fs w) (Some df) (heap w) (screen w).

(** The page down to the insights, for a file whose summary and chart
    columns are in order; the cards and the table follow. *)
Definition page_top (n : nat) (avg mx : num) (tk : cell) (qs : list Q)
    (flags names tickers a b : list cell) : list widget :=
  [KpiCompanies 5; KpiRecommend n; KpiAverage (Text Dollars0 avg);
   KpiHighest tk (Text Dollars0 mx);
   price_chart_of (sort_keys 0 (map Fin qs) [] []) qs tickers flags;
   ComparisonChart (scenario_table names (prices qs) a b);
   Markdown "insights"].

(** * Properties *)

(** ** Cells and masks *)

Lemma eq_str_true (c : cell) (s : string) : eq_str c s = true <-> c = Str s.
Proof.
  destruct c as [x | s' | f x]; simpl; split; try discriminate.
  - intros H. apply String.eqb_eq in H. congruence.
  - intros H. injection H as ->. apply String.eqb_refl.
Qed.

Lemma select_map_length {A} (p : cell -> bool) (vs : list cell) (xs : list A) :
  length vs = length xs ->
  length (select (map p vs) xs) = length (List.filter p vs).
Proof.
  revert xs. induction vs as [| v vs IH]; intros [| x xs] Hlen; simpl in *;
    try discriminate; auto.
  destruct (p v); simpl; auto.
Qed.

Lemma filter_eq_str_length (s : string) (vs : list cell) :
  length (List.filter (fun c => eq_str c s) vs)
  = length (filter (fun c => c = Str s) vs).
Proof.
  induction vs as [| v vs IH]; [reflexivity |].
  simpl. rewrite filter_cons. destruct (decide (v = Str s)) as [Heq | Hne].
  - apply eq_str_true in Heq. rewrite Heq. simpl. congruence.
  - destruct (eq_str v s) eqn:E; [apply eq_str_true in E; contradiction | exact IH].
Qed.

Lemma select_flags_length (data : DataFrame) (flags : list cell) :
  length flags = length (index data) ->
  len (getitem_mask data (map (fun c => eq_str c "YES") flags))
  = length (filter (fun c => c = Str "YES") flags).
Proof.
  intros Hlen. unfold len, getitem_mask. simpl.
  rewrite select_map_length by exact Hlen.
  apply filter_eq_str_length.
Qed.

(** C10.  The Recommend Split figure is the number of records whose
    Split_Recommendation cell is exactly the string YES.  Whatever else a
    cell holds (another spelling, a number, NaN) the count is returned without
    an exception and the record is not counted. *)
Theorem recommend_count_exact_YES (data : DataFrame) (flags : list cell) :
  assoc "Split_Recommendation" (columns data) = Some flags ->
  length flags = length (index data) ->
  recommend_count data = Ok (length (filter (fun c => c = Str "YES") flags)).
Proof.
  intros Hcol Hlen. unfold recommend_count, getitem. rewrite Hcol.
  cbn [obind]. unfold series_eq. cbn [s_values].
  now rewrite select_flags_length.
Qed.

Lemma recommend_count_exact_YES_witness :
  recommend_count loose_flags = Ok 1%nat.
Proof.
  apply (recommend_count_exact_YES loose_flags
           [Str "YES"; Str "yes"; Str "Y"; Num NaN; Str "YES "; Num (Fin 1)]);
    reflexivity.
Defined.

(** ** What a computation may touch *)

Lemma keeps_refl n w : keeps n w w.
Proof. unfold keeps. repeat split; auto. exists []. now rewrite app_nil_r. Qed.

Lemma keeps_trans n w1 w2 w3 : keeps n w1 w2 -> keeps n w2 w3 -> keeps n w1 w3.
Proof.
  intros (F1 & C1 & H1 & L1 & m1 & S1) (F2 & C2 & H2 & L2 & m2 & S2).
  unfold keeps. repeat split; try congruence; try lia.
  exists (m1 ++ m2). rewrite S2, S1. now rewrite app_assoc.
Qed.

Lemma safe_ret {A} n (a : A) (post : A -> Prop) : post a -> safe n (ret a) post.
Proof.
  intros Hp w _. simpl. split; [apply keeps_refl |]. intros a' [= <-]. exact Hp.
Qed.

Lemma safe_raise {A} n e (post : A -> Prop) : safe n (raise e) post.
Proof. intros w _. simpl. split; [apply keeps_refl | discriminate]. Qed.

Lemma safe_lift {A} n (o : outcome A) : safe n (lift o) (fun _ => True).
Proof. intros w _. simpl. split; [apply keeps_refl | auto]. Qed.

Lemma safe_bind {A B} n (m : M A) (k : A -> M B) (P : A -> Prop) (Q : B -> Prop) :
  safe n m P -> (forall a, P a -> safe n (k a) Q) -> safe n (bind m k) Q.
Proof.
  intros Hm Hk w Hn. unfold bind. destruct (Hm w Hn) as [Hkeep Hpost].
  destruct (m w) as [[a | e] w'] eqn:E; simpl in *.
  - assert (Hn' : n <= length (heap w')) by (destruct Hkeep as (_ & _ & _ & L & _); lia).
    destruct (Hk a (Hpost a eq_refl) w' Hn') as [Hkeep' Hpost'].
    split; [eapply keeps_trans; eassumption | exact Hpost'].
  - split; [exact Hkeep | discriminate].
Qed.

Lemma safe_weaken {A} n (m : M A) (P Q : A -> Prop) :
  safe n m P -> (forall a, P a -> Q a) -> safe n m Q.
Proof.
  intros Hm HPQ w Hn. destruct (Hm w Hn) as [Hk Hp]. split; auto.
Qed.

Lemma safe_emit n x : safe n (emit x) (fun _ => True).
Proof.
  intros w _. simpl. split; [| auto].
  unfold keeps. simpl. repeat split; auto. now exists [x].
Qed.

Lemma safe_deref n r : safe n (deref r) (fun _ => True).
Proof.
  intros w _. unfold deref. destruct (heap w !! r); simpl;
    (split; [apply keeps_refl | auto]).
Qed.

(** A new object lies beyond the kept ones. *)
Lemma safe_new n df : safe n (new df) (fun r => n <= r).
Proof.
  intros w Hn. simpl. split.
  - unfold keeps. simpl. repeat split; auto.
    + now rewrite take_app_le by exact Hn.
    + rewrite length_app. lia.
    + exists []. now rewrite app_nil_r.
  - intros a [= <-]. exact Hn.
Qed.

(** Writing a column of an object beyond the kept ones. *)
Lemma safe_setitem n r col vs : n <= r -> safe n (setitem r col vs) (fun _ => True).
Proof.
  intros Hr w Hn. unfold setitem. destruct (heap w !! r) as [df |]; simpl.
  - split; [| auto]. unfold keeps. simpl. repeat split; auto.
    + now apply take_insert_ge.
    + now rewrite length_insert.
    + exists []. now rewrite app_nil_r.
  - split; [apply keeps_refl | auto].
Qed.

Ltac safe_step :=
  first
    [ apply safe_emit | apply safe_deref | apply safe_lift | apply safe_raise
    | apply safe_ret; exact I
    | eapply safe_weaken; [apply safe_new | intros; exact I] ].

Ltac safe_chain :=
  repeat (eapply safe_bind; [safe_step | intros ? _]); try safe_step.

Lemma safe_kpi_row n data : safe n (kpi_row data) (fun _ => True).
Proof. unfold kpi_row. safe_chain. Qed.

Lemma safe_price_chart n data : safe n (price_chart data) (fun _ => True).
Proof. unfold price_chart. safe_chain. Qed.

Lemma safe_comparison_chart n data : safe n (comparison_chart data) (fun _ => True).
Proof. unfold comparison_chart. safe_chain. Qed.

Lemma safe_cards n rows : safe n (cards rows) (fun _ => True).
Proof.
  induction rows as [| [idx r] rows IH]; simpl; [safe_step |].
  safe_chain. exact IH.
Qed.

Lemma safe_company_cards n data : safe n (company_cards data) (fun _ => True).
Proof.
  unfold company_cards. eapply safe_bind; [safe_step | intros df _].
  apply safe_cards.
Qed.

Lemma safe_format_column n r col f :
  n <= r -> safe n (format_column r col f) (fun _ => True).
Proof.
  intros Hr. unfold format_column. safe_chain. now apply safe_setitem.
Qed.

Lemma safe_format_columns n r cols f :
  n <= r -> safe n (format_columns r cols f) (fun _ => True).
Proof.
  intros Hr. induction cols as [| col cols IH]; simpl; [safe_step |].
  eapply safe_bind; [now apply safe_format_column | intros _ _; exact IH].
Qed.

(** The table is formatted on the copy: [data] is beyond its reach. *)
Lemma safe_detail_table n data : safe n (detail_table data) (fun _ => True).
Proof.
  unfold detail_table.
  eapply safe_bind; [safe_step | intros df _].
  eapply safe_bind; [apply safe_new | intros display_df Hr].
  eapply safe_bind; [now apply safe_format_columns | intros _ _].
  do 3 (eapply safe_bind; [now apply safe_format_column | intros _ _]).
  safe_chain.
Qed.

Lemma safe_render n data : safe n (render data) (fun _ => True).
Proof.
  unfold render.
  eapply safe_bind; [apply safe_kpi_row | intros _ _].
  eapply safe_bind; [apply safe_price_chart | intros _ _].
  eapply safe_bind; [apply safe_comparison_chart | intros _ _].
  eapply safe_bind; [apply safe_emit | intros _ _].
  eapply safe_bind; [apply safe_company_cards | intros _ _].
  eapply safe_bind; [apply safe_detail_table | intros _ _].
  apply safe_emit.
Qed.

(** ** The page only grows *)

Lemma safe_grows {A} (m : M A) (P : A -> Prop) : safe 0 m P -> grows m.
Proof.
  intros Hs w. destruct (Hs w (Nat.le_0_l _)) as [(_ & _ & _ & _ & Hmore) _].
  exact Hmore.
Qed.

Lemma first_shows_emit {B} x (k : unit -> M B) :
  (forall u, grows (k u)) -> first_shows x (bind (emit x) k).
Proof.
  intros Hk w. unfold bind, emit. destruct (Hk tt
    (mkWorld (fs w) (cache w) (heap w) (screen w ++ [x]))) as [more Hmore].
  exists more. rewrite Hmore. simpl. now rewrite <- app_assoc.
Qed.

Lemma first_shows_bind {A B} x (m : M A) (k : A -> M B) :
  first_shows x m -> (forall a, grows (k a)) -> first_shows x (bind m k).
Proof.
  intros Hm Hk w. unfold bind. destruct (Hm w) as [rest Hrest].
  destruct (m w) as [[a | e] w']; simpl in *.
  - destruct (Hk a w') as [more Hmore]. exists (rest ++ more).
    rewrite Hmore, Hrest. now rewrite <- app_assoc.
  - now exists rest.
Qed.

(** ** The number of companies *)

Lemma render_first_shows (data : ref) : first_shows (KpiCompanies 5) (render data).
Proof.
  unfold render. apply first_shows_bind.
  - unfold kpi_row. apply first_shows_emit. intros _.
    eapply safe_grows. safe_chain.
  - intros _. eapply safe_grows.
    eapply safe_bind; [apply safe_price_chart | intros _ _].
    eapply safe_bind; [apply safe_comparison_chart | intros _ _].
    eapply safe_bind; [apply safe_emit | intros _ _].
    eapply safe_bind; [apply safe_company_cards | intros _ _].
    eapply safe_bind; [apply safe_detail_table | intros _ _].
    apply safe_emit.
Qed.

(** C2, as the script has it.  Whatever record set the file holds, the
    Companies Analyzed card of the page carries the literal 5; it is the
    number of records only for a file of five. *)
Theorem company_count_is_five (files : gmap string file) (df : DataFrame) :
  files !! csv_path = Some (Parsed df) ->
  company_count (screen (snd (main (fresh files)))) = Some 5%nat.
Proof.
  intros Hfile.
  unfold main, try_except, emit, load_data, cache_data, read_csv, ret, new,
    fresh, bind.
  cbn [fs cache heap screen fst snd]. rewrite Hfile.
  cbn [fs cache heap screen fst snd length app].
  match goal with
  | |- context [render 0%nat ?w] =>
      destruct (render_first_shows 0%nat w) as [rest Hrest]; rewrite Hrest
  end.
  reflexivity.
Qed.

Lemma company_count_is_five_witness :
  company_count (screen (snd (main (fresh (on_disk two_companies))))) = Some 5%nat.
Proof.
  apply (company_count_is_five (on_disk two_companies) two_companies).
  reflexivity.
Defined.

(** C2, refuted as stated: with two records in the file the page shows 5
    companies. *)
Lemma company_count_not_record_count :
  let page := screen (snd (main (fresh (on_disk two_companies)))) in
  len two_companies = 2%nat /\
  company_count page = Some 5%nat /\
  company_count page <> Some (len two_companies).
Proof. vm_compute. repeat split; discriminate. Qed.

(** ** Loading *)

(** C4, as the script has it.  [load_data] fails for a missing file, with
    FileNotFoundError, and for text pandas cannot read, with the parser's
    error; in every other case it returns a new object holding the table of
    the file (or of the cache) as it is, with no column asked for and no cell
    type checked. *)
Theorem load_data_checks_nothing (w : world) :
  match load_data w with
  | (Ok data, w') =>
      exists df, heap w' !! data = Some df /\ cache w' = Some df /\
        (cache w = Some df \/
         (cache w = None /\ fs w !! csv_path = Some (Parsed df)))
  | (Raise e, w') =>
      w' = w /\ cache w = None /\
      ((e = FileNotFoundError /\ fs w !! csv_path = None) \/
       (e = ParserError /\ fs w !! csv_path = Some Malformed))
  end.
Proof.
  unfold load_data, cache_data, bind, read_csv, ret, new.
  destruct (cache w) as [c |] eqn:Ec.
  - exists c. simpl. split; [| auto].
    now rewrite lookup_app_r, Nat.sub_diag by lia.
  - destruct (fs w !! csv_path) as [[df |] |] eqn:Ef; simpl.
    + exists df. split; [| auto].
      now rewrite lookup_app_r, Nat.sub_diag by lia.
    + auto.
    + auto.
Qed.

(** C4, refuted as stated: a file without the PE_Ratio column loads, the
    summary cards and both charts are produced, and the run ends in a
    KeyError at the first company card. *)
Lemma missing_column_loads :
  let w := fresh (on_disk no_pe_ratio) in
  fst (load_data w) = Ok 0%nat /\
  heap (snd (load_data w)) !! 0%nat = Some no_pe_ratio /\
  fst (main w) = Raise (KeyError "PE_Ratio") /\
  split_recommended_count (screen (snd (main w))) = Some 1%nat /\
  In (KpiHighest (Str "AMZN") (Text Dollars0 (Fin 3584))) (screen (snd (main w))).
Proof. vm_compute. repeat split; auto 10. Qed.

Lemma load_data_keeps (w : world) :
  let w' := snd (load_data w) in
  fs w' = fs w /\
  take (length (heap w)) (heap w') = heap w /\
  (cache w <> None -> cache w' = cache w).
Proof.
  unfold load_data, cache_data, bind, read_csv, ret, new.
  destruct (cache w) as [c |] eqn:Ec; simpl.
  - rewrite take_app_length. auto.
  - destruct (fs w !! csv_path) as [[df |] |]; simpl.
    + rewrite take_app_length. repeat split; auto. congruence.
    + rewrite firstn_all. auto.
    + rewrite firstn_all. auto.
Qed.

(** ** The record set is never written *)

(** C9, as the script has it.  An existing DataFrame object holds the same
    frame after [load_data] and after everything [main] renders from it:
    sorting and display formatting write to new objects.  The parsed file is
    never written.  Of the process-wide state only the [st.cache_data] store
    changes, and only while it is empty. *)
Theorem record_set_never_written (w : world) (data : ref) (df : DataFrame) :
  heap w !! data = Some df ->
  (let w1 := snd (load_data w) in
   heap w1 !! data = Some df /\ fs w1 = fs w /\
   (cache w <> None -> cache w1 = cache w)) /\
  (let w2 := snd (render data w) in
   heap w2 !! data = Some df /\ fs w2 = fs w /\ cache w2 = cache w).
Proof.
  intros Hdata.
  assert (Hlt : data < length (heap w)) by (eapply lookup_lt_Some; eassumption).
  split.
  - destruct (load_data_keeps w) as (Hfs & Htake & Hcache).
    repeat split; auto.
    rewrite <- (lookup_take_lt _ (length (heap w))) by exact Hlt.
    now rewrite Htake.
  - destruct (safe_render (length (heap w)) data w (Nat.le_refl _))
      as [(Hfs & Hcache & Htake & _) _].
    repeat split; auto.
    rewrite <- (lookup_take_lt _ (length (heap w))) by exact Hlt.
    rewrite Htake, firstn_all. exact Hdata.
Qed.

Lemma record_set_never_written_witness :
  let w := snd (load_data (fresh (on_disk two_companies))) in
  (let w1 := snd (load_data w) in
   heap w1 !! 0%nat = Some two_companies /\ fs w1 = fs w /\
   (cache w <> None -> cache w1 = cache w)) /\
  (let w2 := snd (render 0%nat w) in
   heap w2 !! 0%nat = Some two_companies /\ fs w2 = fs w /\ cache w2 = cache w).
Proof.
  apply (record_set_never_written
           (snd (load_data (fresh (on_disk two_companies)))) 0%nat two_companies).
  reflexivity.
Defined.

(** C9, refuted as stated: the first load writes the process-wide cache. *)
Lemma load_data_writes_cache :
  let w := fresh (on_disk two_companies) in
  cache w = None /\
  cache (snd (load_data w)) = Some two_companies /\
  cache (snd (load_data w)) <> cache w.
Proof. vm_compute. repeat split; discriminate. Qed.

(** ** An empty record set *)

Lemma rectangular_assoc (df : DataFrame) (k : string) (vs : list cell) :
  rectangular df -> assoc k (columns df) = Some vs ->
  length vs = length (index df).
Proof.
  unfold rectangular. generalize (length (index df)) as n.
  induction (columns df) as [| [k' v] cs IH]; intros n Hrect Hk; simpl in *;
    [discriminate |].
  apply Forall_cons in Hrect as [Hv Hcs].
  destruct (String.eqb k k'); [injection Hk as <-; exact Hv | eauto].
Qed.

Lemma empty_column (df : DataFrame) (k : string) :
  index df = [] -> rectangular df -> assoc k (columns df) <> None ->
  assoc k (columns df) = Some [].
Proof.
  intros Hidx Hrect Hk. destruct (assoc k (columns df)) as [vs |] eqn:E;
    [| contradiction].
  apply (rectangular_assoc _ _ _ Hrect) in E as Hlen. rewrite Hidx in Hlen.
  destruct vs; [reflexivity | discriminate].
Qed.

(** C3, as the script has it.  With no record the run ends in pandas'
    ValueError, raised by [idxmax] on the empty price column; there is no
    emptiness check and no error type of the script's own.  By then the
    Companies Analyzed card (5), the Recommend Split card (0) and the Average
    Price card (NaN) are on the page; nothing follows them. *)
Theorem empty_record_set_raises_ValueError (w : world) (data : ref) (df : DataFrame) :
  heap w !! data = Some df ->
  index df = [] -> rectangular df ->
  assoc "Split_Recommendation" (columns df) <> None ->
  assoc "Price_USD" (columns df) <> None ->
  render data w =
    (Raise ValueError,
     mkWorld (fs w) (cache w) (heap w)
       (screen w ++ [KpiCompanies 5; KpiRecommend 0;
                     KpiAverage (Text Dollars0 NaN)])).
Proof.
  intros Hdata Hidx Hrect Hrec Hprice.
  apply (empty_column _ _ Hidx Hrect) in Hrec, Hprice.
  assert (Hn : recommend_count df = Ok 0%nat).
  { unfold recommend_count, getitem, len, getitem_mask. rewrite Hrec, Hidx.
    reflexivity. }
  assert (Ha : avg_price df = Ok NaN).
  { unfold avg_price, getitem. now rewrite Hprice. }
  assert (Hm : max_price df = Ok NaN).
  { unfold max_price, getitem. now rewrite Hprice. }
  assert (Ht : max_ticker df = Raise ValueError).
  { unfold max_ticker, getitem. now rewrite Hprice. }
  unfold render, kpi_row, bind, emit, deref, lift.
  cbn [heap fst snd]. rewrite Hdata, Hn. cbn [heap fst snd].
  rewrite Hdata, Ha. cbn [heap fst snd]. rewrite Hdata, Hm.
  cbn [heap fst snd]. rewrite Hdata, Ht.
  cbn [fs cache heap screen]. now rewrite <- !app_assoc.
Qed.

Lemma empty_record_set_raises_ValueError_witness :
  let w := snd (load_data (fresh (on_disk empty_portfolio))) in
  render 0%nat w =
    (Raise ValueError,
     mkWorld (fs w) (cache w) (heap w)
       (screen w ++ [KpiCompanies 5; KpiRecommend 0;
                     KpiAverage (Text Dollars0 NaN)])).
Proof.
  apply (empty_record_set_raises_ValueError
           (snd (load_data (fresh (on_disk empty_portfolio)))) 0%nat
           empty_portfolio).
  - reflexivity.
  - reflexivity.
  - unfold rectangular. vm_compute. repeat constructor.
  - discriminate.
  - discriminate.
Defined.

(** C3, refuted as stated: on the header-only file the error is ValueError
    and three summary cards have been produced. *)
Lemma empty_file_shows_summary_cards :
  let r := main (fresh (on_disk empty_portfolio)) in
  len empty_portfolio = 0%nat /\
  fst r = Raise ValueError /\
  screen (snd r) =
    [Markdown "title"; Markdown "subtitle: Analysis of 5 S&P 500 Companies";
     KpiCompanies 5; KpiRecommend 0; KpiAverage (Text Dollars0 NaN)].
Proof. vm_compute. auto. Qed.

(** ** The comparison rows *)

Lemma row_assoc_row_at (cs : list (string * list cell)) (k : string) (i : nat) :
  Forall (fun c => i < length (snd c)) cs ->
  row_assoc k (row_at cs i) = match assoc k cs with
                              | Some vs => vs !! i
                              | None => None
                              end.
Proof.
  induction cs as [| [k' v] cs IH]; intros Hall; [reflexivity |].
  apply Forall_cons in Hall as [Hv Hcs]. simpl in Hv.
  destruct (lookup_lt_is_Some_2 v i Hv) as [x Hx].
  cbn [row_at assoc]. rewrite Hx. cbn [row_assoc].
  destruct (String.eqb k k'); [now rewrite Hx | now apply IH].
Qed.

Lemma row_get_cell (df : DataFrame) (k : string) (vs : list cell) (i : nat) (c : cell) :
  rectangular df -> i < length (index df) ->
  assoc k (columns df) = Some vs -> vs !! i = Some c ->
  row_get (row_at (columns df) i) k = Ok c.
Proof.
  intros Hrect Hi Hk Hc. unfold row_get. rewrite row_assoc_row_at.
  - now rewrite Hk, Hc.
  - eapply Forall_impl; [exact Hrect |]. simpl. intros c' Hlen. lia.
Qed.

Lemma iterrows_lookup (df : DataFrame) (i : nat) (l : nat) :
  index df !! i = Some l ->
  iterrows df !! i = Some (l, row_at (columns df) i).
Proof. intros Hl. unfold iterrows. now rewrite list_lookup_imap, Hl. Qed.

Lemma length_iterrows (df : DataFrame) : length (iterrows df) = length (index df).
Proof. unfold iterrows. apply length_imap. Qed.

Section Comparison.
Variable df : DataFrame.
Variables names p a b : list cell.
Hypothesis Hrect : rectangular df.
Hypothesis Hnames : assoc "Company" (columns df) = Some names.
Hypothesis Hp : assoc "Price_USD" (columns df) = Some p.
Hypothesis Ha : assoc "Price_After_10to1" (columns df) = Some a.
Hypothesis Hb : assoc "Price_After_20to1" (columns df) = Some b.

Lemma comparison_loop_from (k i : nat) (acc : list ScenarioRow) :
  i + k = length (index df) ->
  comparison_loop (drop i (iterrows df)) acc
  = Ok (acc ++ scenario_table (drop i names) (drop i p) (drop i a) (drop i b)).
Proof.
  pose proof (rectangular_assoc _ _ _ Hrect Hnames) as Ln.
  pose proof (rectangular_assoc _ _ _ Hrect Hp) as Lp.
  pose proof (rectangular_assoc _ _ _ Hrect Ha) as La.
  pose proof (rectangular_assoc _ _ _ Hrect Hb) as Lb.
  revert i acc. induction k as [| k IH]; intros i acc Hik.
  - rewrite !drop_ge by (rewrite ?length_iterrows; lia).
    simpl. now rewrite app_nil_r.
  - assert (Hi : i < length (index df)) by lia.
    destruct (lookup_lt_is_Some_2 (index df) i Hi) as [l Hl].
    destruct (lookup_lt_is_Some_2 names i ltac:(lia)) as [c Hc].
    destruct (lookup_lt_is_Some_2 p i ltac:(lia)) as [x Hx].
    destruct (lookup_lt_is_Some_2 a i ltac:(lia)) as [y Hy].
    destruct (lookup_lt_is_Some_2 b i ltac:(lia)) as [z Hz].
    rewrite (drop_S _ _ _ (iterrows_lookup _ _ _ Hl)).
    rewrite (drop_S _ _ _ Hc), (drop_S _ _ _ Hx), (drop_S _ _ _ Hy),
      (drop_S _ _ _ Hz).
    cbn [comparison_loop scenario_table]. unfold scenarios.
    rewrite (row_get_cell df "Company" names i c Hrect Hi Hnames Hc).
    rewrite (row_get_cell df "Price_USD" p i x Hrect Hi Hp Hx).
    rewrite (row_get_cell df "Price_After_10to1" a i y Hrect Hi Ha Hy).
    rewrite (row_get_cell df "Price_After_20to1" b i z Hrect Hi Hb Hz).
    cbn [obind]. rewrite IH by lia. now rewrite <- app_assoc.
Qed.

Lemma comparison_data_table :
  comparison_data df = Ok (scenario_table names p a b).
Proof.
  unfold comparison_data.
  now rewrite <- (drop_0 (iterrows df)), (comparison_loop_from (length (index df)) 0).
Qed.
End Comparison.

Lemma length_scenario_table (names p a b : list cell) (n : nat) :
  length names = n -> length p = n -> length a = n -> length b = n ->
  length (scenario_table names p a b) = 3 * n.
Proof.
  revert p a b n. induction names as [| c names IH];
    intros [| x p] [| y a] [| z b] n Ln Lp La Lb; simpl in *; subst;
    try discriminate; try reflexivity.
  rewrite (IH p a b (length names)) by congruence. lia.
Qed.

Lemma group_scenario_table (names p a b : list cell) (i : nat) (c x y z : cell) :
  names !! i = Some c -> p !! i = Some x -> a !! i = Some y -> b !! i = Some z ->
  group i (scenario_table names p a b)
  = [mkScenario c "Current" x; mkScenario c "10:1 Split" y;
     mkScenario c "20:1 Split" z].
Proof.
  unfold group. revert names p a b.
  induction i as [| i IH]; intros [| c' names] [| x' p] [| y' a] [| z' b];
    try discriminate.
  - now intros [= ->] [= ->] [= ->] [= ->].
  - intros Hc Hx Hy Hz. replace (3 * S i) with (S (S (S (3 * i)))) by lia.
    cbn [scenario_table drop]. now apply IH.
Qed.

(** C5.  For a record set with the four columns the loop reads, the
    comparison table has exactly three rows per record (none for no record),
    the records in file order and, within a record, the scenarios in the order
    Current, 10:1 Split, 20:1 Split under the record's company name. *)
Theorem comparison_rows_three_per_record
    (data : DataFrame) (names p a b : list cell) :
  rectangular data ->
  assoc "Company" (columns data) = Some names ->
  assoc "Price_USD" (columns data) = Some p ->
  assoc "Price_After_10to1" (columns data) = Some a ->
  assoc "Price_After_20to1" (columns data) = Some b ->
  exists rows,
    comparison_data data = Ok rows /\
    length rows = 3 * len data /\
    forall i c, names !! i = Some c ->
      map (fun r => (Company r, Scenario r)) (group i rows)
      = [(c, "Current"); (c, "10:1 Split"); (c, "20:1 Split")].
Proof.
  intros Hrect Hn Hp Ha Hb. exists (scenario_table names p a b).
  pose proof (rectangular_assoc _ _ _ Hrect Hn) as Ln.
  pose proof (rectangular_assoc _ _ _ Hrect Hp) as Lp.
  pose proof (rectangular_assoc _ _ _ Hrect Ha) as La.
  pose proof (rectangular_assoc _ _ _ Hrect Hb) as Lb.
  split; [now apply comparison_data_table |].
  split; [now apply length_scenario_table |].
  intros i c Hc.
  assert (Hi : i < length names) by (eapply lookup_lt_Some; eassumption).
  destruct (lookup_lt_is_Some_2 p i ltac:(lia)) as [x Hx].
  destruct (lookup_lt_is_Some_2 a i ltac:(lia)) as [y Hy].
  destruct (lookup_lt_is_Some_2 b i ltac:(lia)) as [z Hz].
  now rewrite (group_scenario_table _ _ _ _ _ _ _ _ _ Hc Hx Hy Hz).
Qed.

Lemma comparison_rows_three_per_record_witness :
  exists rows,
    comparison_data two_companies = Ok rows /\
    length rows = 3 * len two_companies /\
    forall i c, [Str "Amazon"; Str "Coca-Cola"] !! i = Some c ->
      map (fun r => (Company r, Scenario r)) (group i rows)
      = [(c, "Current"); (c, "10:1 Split"); (c, "20:1 Split")].
Proof.
  apply (comparison_rows_three_per_record two_companies
           [Str "Amazon"; Str "Coca-Cola"]
           [Num (Fin 3584); Num (Fin (625 # 10))]
           [Num (Fin (3584 # 10)); Num (Fin (625 # 100))]
           [Num (Fin (1792 # 10)); Num (Fin (3125 # 1000))]).
  - unfold rectangular. vm_compute. repeat constructor.
  - reflexivity.
  - reflexivity.
  - reflexivity.
  - reflexivity.
Defined.

(** C1, as the script has it.  No division is performed: the 10:1 and 20:1
    rows of a company carry the cells of the file's Price_After_10to1 and
    Price_After_20to1 columns unchanged, next to its Price_USD cell. *)
Theorem split_prices_are_file_columns
    (data : DataFrame) (names p a b : list cell) :
  rectangular data ->
  assoc "Company" (columns data) = Some names ->
  assoc "Price_USD" (columns data) = Some p ->
  assoc "Price_After_10to1" (columns data) = Some a ->
  assoc "Price_After_20to1" (columns data) = Some b ->
  exists rows,
    comparison_data data = Ok rows /\
    forall i x y z, p !! i = Some x -> a !! i = Some y -> b !! i = Some z ->
      map Price (group i rows) = [x; y; z].
Proof.
  intros Hrect Hn Hp Ha Hb. exists (scenario_table names p a b).
  split; [now apply comparison_data_table |].
  intros i x y z Hx Hy Hz.
  pose proof (rectangular_assoc _ _ _ Hrect Hn) as Ln.
  pose proof (rectangular_assoc _ _ _ Hrect Hp) as Lp.
  assert (Hi : i < length p) by (eapply lookup_lt_Some; eassumption).
  destruct (lookup_lt_is_Some_2 names i ltac:(lia)) as [c Hc].
  now rewrite (group_scenario_table _ _ _ _ _ _ _ _ _ Hc Hx Hy Hz).
Qed.

Lemma split_prices_are_file_columns_witness :
  exists rows,
    comparison_data mispriced = Ok rows /\
    forall i x y z,
      [Num (Fin 100)] !! i = Some x -> [Num (Fin 7)] !! i = Some y ->
      [Num (Fin 5)] !! i = Some z ->
      map Price (group i rows) = [x; y; z].
Proof.
  apply (split_prices_are_file_columns mispriced
           [Str "Acme"] [Num (Fin 100)] [Num (Fin 7)] [Num (Fin 5)]).
  - unfold rectangular. vm_compute. repeat constructor.
  - reflexivity.
  - reflexivity.
  - reflexivity.
  - reflexivity.
Defined.

(** C1, refuted as stated: a file gives the price 100 and the split columns
    7 and 5; the rows show 7 and 5, not 10 and 5. *)
Lemma split_prices_not_derived : ~ derives_by_division mispriced.
Proof.
  intros H.
  destruct (H (scenario_table [Str "Acme"] [Num (Fin 100)] [Num (Fin 7)] [Num (Fin 5)])
              0%nat (Str "Acme") (Str "Acme") (Str "Acme") 100%Q
              (Num (Fin 7)) (Num (Fin 5)) eq_refl eq_refl eq_refl)
    as (q10 & q20 & [= <-] & _ & Hten & _).
  revert Hten. unfold within, eps. vm_compute. intros Hle. now apply Hle.
Qed.

(** C6, as the script has it.  The script copies the three prices and checks
    no order between them.  Where the file's split columns do hold the price
    over 10 and over 20, a positive price gives the strict order
    20:1 price < 10:1 price < current price in the company's rows. *)
Theorem split_prices_ordered_when_file_divides
    (data : DataFrame) (names p a b : list cell) (i : nat) (q q10 q20 : Q) :
  rectangular data ->
  assoc "Company" (columns data) = Some names ->
  assoc "Price_USD" (columns data) = Some p ->
  assoc "Price_After_10to1" (columns data) = Some a ->
  assoc "Price_After_20to1" (columns data) = Some b ->
  p !! i = Some (Num (Fin q)) ->
  a !! i = Some (Num (Fin q10)) ->
  b !! i = Some (Num (Fin q20)) ->
  (q10 == q / 10)%Q -> (q20 == q / 20)%Q -> (0 < q)%Q ->
  exists rows,
    comparison_data data = Ok rows /\
    map Price (group i rows) = [Num (Fin q); Num (Fin q10); Num (Fin q20)] /\
    (q20 < q10)%Q /\ (q10 < q)%Q.
Proof.
  intros Hrect Hn Hp Ha Hb Hx Hy Hz H10 H20 Hpos.
  exists (scenario_table names p a b).
  split; [now apply comparison_data_table |].
  pose proof (rectangular_assoc _ _ _ Hrect Hn) as Ln.
  pose proof (rectangular_assoc _ _ _ Hrect Hp) as Lp.
  assert (Hi : i < length p) by (eapply lookup_lt_Some; eassumption).
  destruct (lookup_lt_is_Some_2 names i ltac:(lia)) as [c Hc].
  split; [now rewrite (group_scenario_table _ _ _ _ _ _ _ _ _ Hc Hx Hy Hz) |].
  rewrite H10, H20. split.
  - unfold Qdiv. apply Qmult_lt_l; [exact Hpos | reflexivity].
  - apply Qlt_shift_div_r; [reflexivity | lra].
Qed.

Lemma split_prices_ordered_when_file_divides_witness :
  exists rows,
    comparison_data two_companies = Ok rows /\
    map Price (group 1 rows)
    = [Num (Fin (625 # 10)); Num (Fin (625 # 100)); Num (Fin (3125 # 1000))] /\
    (3125 # 1000 < 625 # 100)%Q /\ (625 # 100 < 625 # 10)%Q.
Proof.
  apply (split_prices_ordered_when_file_divides two_companies
           [Str "Amazon"; Str "Coca-Cola"]
           [Num (Fin 3584); Num (Fin (625 # 10))]
           [Num (Fin (3584 # 10)); Num (Fin (625 # 100))]
           [Num (Fin (1792 # 10)); Num (Fin (3125 # 1000))]
           1%nat (625 # 10) (625 # 100) (3125 # 1000)).
  - unfold rectangular. vm_compute. repeat constructor.
  - reflexivity.
  - reflexivity.
  - reflexivity.
  - reflexivity.
  - reflexivity.
  - reflexivity.
  - reflexivity.
  - reflexivity.
  - reflexivity.
  - reflexivity.
Defined.

(** C6, refuted as stated: a file gives the price 100 and the split columns
    200 and 300; the rows show them in that order. *)
Lemma split_prices_not_ordered : ~ split_prices_ordered inverted.
Proof.
  intros H.
  destruct (H (scenario_table [Str "Acme"] [Num (Fin 100)] [Num (Fin 200)]
                 [Num (Fin 300)])
              0%nat (Str "Acme") (Str "Acme") (Str "Acme") 100%Q 200%Q 300%Q
              eq_refl eq_refl eq_refl) as [Hlt _].
  revert Hlt. vm_compute. discriminate.
Qed.

(** ** Reductions over a column of finite prices *)

Lemma as_float64_prices (qs : list Q) : as_float64 (prices qs) = Ok (map Fin qs).
Proof.
  unfold as_float64.
  assert (H : mapM as_num (prices qs) = Some (map Fin qs)).
  { induction qs as [| q qs IH]; [reflexivity |]. simpl. now rewrite IH. }
  now rewrite H.
Qed.

Lemma finite_Fin (qs : list Q) : finite (map Fin qs) = qs.
Proof. induction qs as [| q qs IH]; simpl; congruence. Qed.

Lemma Qle_bool_false (x y : Q) : Qle_bool x y = false -> (y < x)%Q.
Proof.
  intros H. apply Qnot_le_lt. intros Hle. apply Qle_bool_iff in Hle. congruence.
Qed.

Lemma Qmaxl_spec (qs : list Q) (q : Q) :
  In (Qmaxl q qs) (q :: qs) /\ forall x, In x (q :: qs) -> (x <= Qmaxl q qs)%Q.
Proof.
  revert q. induction qs as [| y qs IH]; intros q.
  - simpl. split; [auto |]. intros x [<- | []]. apply Qle_refl.
  - unfold Qmaxl in *. cbn [fold_left].
    destruct (IH (if Qle_bool y q then q else y)) as [Hin Hmax]. split.
    + destruct Hin as [Heq | Hin]; [| right; right; exact Hin].
      rewrite <- Heq. destruct (Qle_bool y q); simpl; auto.
    + intros x Hx.
      assert (Hq : (q <= if Qle_bool y q then q else y)%Q /\
                   (y <= if Qle_bool y q then q else y)%Q).
      { destruct (Qle_bool y q) eqn:E.
        - split; [apply Qle_refl | now apply Qle_bool_iff].
        - split; [apply Qlt_le_weak; now apply Qle_bool_false | apply Qle_refl]. }
      destruct Hq as [Hq Hy].
      destruct Hx as [<- | [<- | Hx]].
      * eapply Qle_trans; [exact Hq | apply Hmax; now left].
      * eapply Qle_trans; [exact Hy | apply Hmax; now left].
      * apply Hmax. now right.
Qed.

(** The scan from a current best: the result bounds every value, and it is
    either the best it started from or the first later value to exceed
    everything before it. *)
Lemma argmax_from_scan (qs : list Q) : forall (ls : list nat) (lb : nat) (qb : Q),
  length ls = length qs ->
  exists l q,
    argmax_from (Some (lb, qb)) ls (map Fin qs) = Some (l, q) /\
    (qb <= q)%Q /\ (forall x, In x qs -> (x <= q)%Q) /\
    ((l = lb /\ q = qb) \/
     (exists i, ls !! i = Some l /\ qs !! i = Some q /\ (qb < q)%Q /\
        forall j x, j < i -> qs !! j = Some x -> (x < q)%Q)).
Proof.
  induction qs as [| y qs IH]; intros [| l0 ls] lb qb Hlen; try discriminate.
  - exists lb, qb. simpl. repeat split; auto using Qle_refl. intros x [].
  - injection Hlen as Hlen. cbn [map argmax_from].
    destruct (Qle_bool y qb) eqn:E.
    + apply Qle_bool_iff in E.
      destruct (IH ls lb qb Hlen) as (l & q & Hres & Hb & Hall & Hcase).
      exists l, q. split; [exact Hres |]. split; [exact Hb |]. split.
      * intros x [<- | Hx]; [eapply Qle_trans; eassumption | now apply Hall].
      * destruct Hcase as [Hsame | (i & Hl & Hq & Hlt & Hfirst)]; [now left |].
        right. exists (S i). repeat split; auto.
        intros [| j] x Hj Hx.
        -- injection Hx as <-. eapply Qle_lt_trans; eassumption.
        -- apply (Hfirst j); [lia | exact Hx].
    + apply Qle_bool_false in E.
      destruct (IH ls l0 y Hlen) as (l & q & Hres & Hb & Hall & Hcase).
      exists l, q. split; [exact Hres |].
      split; [apply Qlt_le_weak; eapply Qlt_le_trans; eassumption |]. split.
      * intros x [<- | Hx]; [exact Hb | now apply Hall].
      * right. destruct Hcase as [[-> ->] | (i & Hl & Hq & Hlt & Hfirst)].
        -- exists 0%nat. repeat split; auto. intros j x Hj. lia.
        -- exists (S i). repeat split; auto.
           ++ eapply Qlt_trans; eassumption.
           ++ intros [| j] x Hj Hx.
              ** now injection Hx as <-.
              ** apply (Hfirst j); [lia | exact Hx].
Qed.

(** [idxmax] over finite prices: the label at the first position whose
    value no other exceeds. *)
Lemma argmax_first (qs : list Q) (ls : list nat) :
  length ls = length qs -> qs <> [] ->
  exists i l q,
    argmax_from None ls (map Fin qs) = Some (l, q) /\
    ls !! i = Some l /\ qs !! i = Some q /\
    (forall x, In x qs -> (x <= q)%Q) /\
    (forall j x, j < i -> qs !! j = Some x -> (x < q)%Q).
Proof.
  destruct qs as [| y qs]; [congruence |]. destruct ls as [| l0 ls]; [discriminate |].
  intros [= Hlen] _. cbn [map argmax_from].
  destruct (argmax_from_scan qs ls l0 y Hlen) as (l & q & Hres & Hb & Hall & Hcase).
  destruct Hcase as [[-> ->] | (i & Hl & Hq & Hlt & Hfirst)].
  - exists 0%nat, l0, y. repeat split; auto.
    + intros x [<- | Hx]; [apply Qle_refl | now apply Hall].
    + intros j x Hj. lia.
  - exists (S i), l, q. repeat split; auto.
    + intros x [<- | Hx]; [exact Hb | now apply Hall].
    + intros [| j] x Hj Hx.
      * now injection Hx as <-.
      * apply (Hfirst j); [lia | exact Hx].
Qed.

Lemma position_lookup (ls : list nat) (i l : nat) :
  NoDup ls -> ls !! i = Some l -> position l ls = Some i.
Proof.
  revert i. induction ls as [| l' ls IH]; intros i Hnd Hl; [discriminate |].
  apply NoDup_cons in Hnd as [Hnotin Hnd]. simpl.
  destruct i as [| i]; simpl in Hl.
  - injection Hl as ->. now rewrite Nat.eqb_refl.
  - destruct (Nat.eqb l l') eqn:E.
    + apply Nat.eqb_eq in E. subst l'. exfalso. apply Hnotin.
      eapply list_elem_of_lookup_2. exact Hl.
    + now rewrite (IH i Hnd Hl).
Qed.

(** ** The highest price and its ticker *)

(** C7.  For a non-empty record set of finite prices, the ticker in the
    Highest Price card is the ticker of the first record, in file order,
    whose price is the maximum: every price is at most it and every earlier
    price is strictly below it.  It is read from [data] in file order; the
    sorted frame of the price chart is another object. *)
Theorem max_ticker_first_maximum
    (data : DataFrame) (qs : list Q) (tickers : list cell) :
  rectangular data -> NoDup (index data) ->
  assoc "Price_USD" (columns data) = Some (prices qs) ->
  assoc "Ticker" (columns data) = Some tickers ->
  qs <> [] ->
  exists i q t m,
    max_price data = Ok (Fin m) /\
    max_ticker data = Ok t /\
    tickers !! i = Some t /\ qs !! i = Some q /\ (q == m)%Q /\
    (forall x, In x qs -> (x <= m)%Q) /\
    (forall j x, j < i -> qs !! j = Some x -> (x < m)%Q).
Proof.
  intros Hrect Hnd Hp Ht Hne.
  pose proof (rectangular_assoc _ _ _ Hrect Hp) as Lp.
  pose proof (rectangular_assoc _ _ _ Hrect Ht) as Lt.
  unfold prices in Lp. rewrite length_map in Lp.
  destruct (argmax_first qs (index data) (eq_sym Lp) Hne)
    as (i & l & q & Hres & Hl & Hq & Hall & Hfirst).
  assert (Hi : i < length qs) by (eapply lookup_lt_Some; eassumption).
  destruct (lookup_lt_is_Some_2 tickers i ltac:(lia)) as [t Htk].
  destruct qs as [| q0 qs']; [congruence |].
  destruct (Qmaxl_spec qs' q0) as [Hin Hmax].
  assert (Hqm : (q == Qmaxl q0 qs')%Q).
  { apply Qle_antisym.
    - apply Hmax. apply list_elem_of_In. eapply list_elem_of_lookup_2. exact Hq.
    - now apply Hall. }
  exists i, q, t, (Qmaxl q0 qs'). split.
  { unfold max_price, getitem. rewrite Hp. cbn [obind]. unfold max.
    cbn [s_values]. rewrite as_float64_prices. cbn [obind].
    now rewrite finite_Fin. }
  split.
  { unfold max_ticker, getitem. rewrite Hp. cbn [obind]. unfold idxmax.
    cbn [s_values s_index]. rewrite as_float64_prices. cbn [prices map obind].
    change (Fin q0 :: map Fin qs') with (map Fin (q0 :: qs')). rewrite Hres.
    cbn [option_map fst]. unfold loc, getitem. rewrite Ht. cbn [obind s_values].
    now rewrite (position_lookup _ _ _ Hnd Hl), Htk. }
  repeat split; auto.
  - intros j x Hj Hx. rewrite <- Hqm. now apply (Hfirst j).
Qed.

Lemma max_ticker_first_maximum_witness :
  exists i q t m,
    max_price tied = Ok (Fin m) /\
    max_ticker tied = Ok t /\
    [Str "LOW"; Str "ONE"; Str "TWO"] !! i = Some t /\
    [50%Q; 900%Q; 900%Q] !! i = Some q /\ (q == m)%Q /\
    (forall x, In x [50%Q; 900%Q; 900%Q] -> (x <= m)%Q) /\
    (forall j x, j < i -> [50%Q; 900%Q; 900%Q] !! j = Some x -> (x < m)%Q).
Proof.
  apply (max_ticker_first_maximum tied [50%Q; 900%Q; 900%Q]
           [Str "LOW"; Str "ONE"; Str "TWO"]).
  - unfold rectangular. vm_compute. repeat constructor.
  - apply (bool_decide_unpack (NoDup (index tied))). vm_compute. exact I.
  - reflexivity.
  - reflexivity.
  - discriminate.
Defined.

(** ** The least price *)



(** ** The summary figures *)




(** * Further properties of the script *)

(** ** Steps as world updates *)

Lemma show_show (xs ys : list widget) (w : world) :
  show ys (show xs w) = show (xs ++ ys) w.
Proof. unfold show. simpl. now rewrite app_assoc. Qed.

Lemma show_nil (w : world) : show [] w = w.
Proof. destruct w. unfold show. simpl. now rewrite app_nil_r. Qed.

Lemma emit_show (x : widget) (w : world) : emit x w = (Ok tt, show [x] w).
Proof. reflexivity. Qed.

Lemma deref_bound (data : ref) (df : DataFrame) (w : world) :
  heap w !! data = Some df -> deref data w = (Ok df, w).
Proof. intros H. unfold deref. now rewrite H. Qed.

Lemma bind_ok {A B} (m : M A) (k : A -> M B) (a : A) (w w' : world) :
  m w = (Ok a, w') -> bind m k w = k a w'.
Proof. intros H. unfold bind. now rewrite H. Qed.

Lemma bind_raise {A B} (m : M A) (k : A -> M B) (e : exn) (w w' : world) :
  m w = (Raise e, w') -> bind m k w = (Raise e, w').
Proof. intros H. unfold bind. now rewrite H. Qed.

(** ** A missing file *)

(** X1.  Without the file and without a cached table the run shows the
    page head and the error box and stops there: no figure, chart, card or
    table is produced, and no object, cache entry or file is written. *)
Theorem missing_file_stops (w : world) :
  cache w = None -> fs w !! csv_path = None ->
  main w =
    (Raise StopException, show (page_head ++ [ErrorBox missing_file_message]) w).
Proof.
  intros Hc Hf.
  unfold main, try_except, emit, load_data, cache_data, read_csv, ret, raise, bind.
  cbn [fs cache heap screen fst snd]. rewrite Hc, Hf.
  cbn [fs cache heap screen fst snd].
  destruct (decide (FileNotFoundError = FileNotFoundError)) as [_ | Hne];
    [| contradiction].
  unfold show, page_head. cbn [fs cache heap screen fst snd].
  now rewrite Hc, <- !app_assoc.
Qed.

Lemma missing_file_stops_witness :
  main (fresh ∅) =
    (Raise StopException,
     show (page_head ++ [ErrorBox missing_file_message]) (fresh ∅)).
Proof.
  apply (missing_file_stops (fresh ∅)).
  - reflexivity.
  - reflexivity.
Defined.

(** X2.  Text pandas cannot read is not handled: the parser's error leaves
    [main] after the page head, with no error box. *)
Theorem unreadable_file_propagates (w : world) :
  cache w = None -> fs w !! csv_path = Some Malformed ->
  main w = (Raise ParserError, show page_head w).
Proof.
  intros Hc Hf.
  unfold main, try_except, emit, load_data, cache_data, read_csv, ret, raise, bind.
  cbn [fs cache heap screen fst snd]. rewrite Hc, Hf.
  cbn [fs cache heap screen fst snd].
  destruct (decide (ParserError = FileNotFoundError)) as [Heq | _];
    [discriminate |].
  unfold show, page_head. cbn [fs cache heap screen fst snd].
  now rewrite Hc, <- !app_assoc.
Qed.

Lemma unreadable_file_propagates_witness :
  main (fresh (<[csv_path := Malformed]> ∅)) =
    (Raise ParserError, show page_head (fresh (<[csv_path := Malformed]> ∅))).
Proof.
  apply (unreadable_file_propagates (fresh (<[csv_path := Malformed]> ∅))).
  - reflexivity.
  - reflexivity.
Defined.

(** ** The cache *)

(** X3.  Once a table has been loaded, a later [load_data] serves that
    table again as a new object, whatever has become of the file (edited,
    unreadable or deleted), and leaves the cache as it is. *)
Theorem reload_serves_cached_table
    (w : world) (df : DataFrame) (files : gmap string file) :
  cache w = None -> fs w !! csv_path = Some (Parsed df) ->
  let w1 := snd (load_data w) in
  let r2 := load_data (with_files files w1) in
  fst (load_data w) = Ok (length (heap w)) /\
  fst r2 = Ok (S (length (heap w))) /\
  heap (snd r2) !! length (heap w) = Some df /\
  heap (snd r2) !! S (length (heap w)) = Some df /\
  cache (snd r2) = Some df.
Proof.
  intros Hc Hf.
  unfold load_data, cache_data, read_csv, ret, new, bind, with_files.
  rewrite Hc, Hf. cbn [fs cache heap screen fst snd].
  rewrite length_app. cbn [length]. rewrite Nat.add_1_r.
  repeat split.
  - rewrite lookup_app_l by (rewrite length_app; simpl; lia).
    now rewrite lookup_app_r, Nat.sub_diag by lia.
  - rewrite lookup_app_r by (rewrite length_app; simpl; lia).
    rewrite length_app. cbn [length].
    now replace (S (length (heap w)) - (length (heap w) + 1)) with 0 by lia.
Qed.

Lemma reload_serves_cached_table_witness :
  let w := fresh (on_disk two_companies) in
  let w1 := snd (load_data w) in
  let r2 := load_data (with_files ∅ w1) in
  fst (load_data w) = Ok (length (heap w)) /\
  fst r2 = Ok (S (length (heap w))) /\
  heap (snd r2) !! length (heap w) = Some two_companies /\
  heap (snd r2) !! S (length (heap w)) = Some two_companies /\
  cache (snd r2) = Some two_companies.
Proof.
  apply (reload_serves_cached_table (fresh (on_disk two_companies))
           two_companies ∅).
  - reflexivity.
  - reflexivity.
Defined.

(** ** The KPI row, step by step *)

(** The four figures are computed and shown one after the other: the row
    stops at the first that raises, with the cards before it on the page. *)
Lemma kpi_row_run (data : ref) (df : DataFrame) (w : world) :
  heap w !! data = Some df ->
  kpi_row data w =
    match recommend_count df with
    | Raise e => (Raise e, show [KpiCompanies 5] w)
    | Ok n =>
        match avg_price df with
        | Raise e => (Raise e, show [KpiCompanies 5; KpiRecommend n] w)
        | Ok avg =>
            let three := [KpiCompanies 5; KpiRecommend n;
                          KpiAverage (Text Dollars0 avg)] in
            match max_price df with
            | Raise e => (Raise e, show three w)
            | Ok mx =>
                match max_ticker df with
                | Raise e => (Raise e, show three w)
                | Ok tk =>
                    (Ok tt, show (three ++ [KpiHighest tk (Text Dollars0 mx)]) w)
                end
            end
        end
    end.
Proof.
  intros Hdata. unfold kpi_row.
  rewrite (bind_ok _ _ tt w (show [KpiCompanies 5] w)) by apply emit_show.
  rewrite (bind_ok _ _ df _ (show [KpiCompanies 5] w)) by now apply deref_bound.
  unfold bind at 1. unfold lift at 1.
  destruct (recommend_count df) as [n | e]; [| reflexivity].
  rewrite (bind_ok _ _ tt _ (show [KpiRecommend n] (show [KpiCompanies 5] w)))
    by apply emit_show.
  rewrite show_show.
  rewrite (bind_ok _ _ df _ (show ([KpiCompanies 5] ++ [KpiRecommend n]) w))
    by now apply deref_bound.
  unfold bind at 1. unfold lift at 1.
  destruct (avg_price df) as [avg | e]; [| reflexivity].
  rewrite (bind_ok _ _ tt _
             (show [KpiAverage (Text Dollars0 avg)]
                (show ([KpiCompanies 5] ++ [KpiRecommend n]) w)))
    by apply emit_show.
  rewrite show_show.
  rewrite (bind_ok _ _ df _
             (show (([KpiCompanies 5] ++ [KpiRecommend n])
                    ++ [KpiAverage (Text Dollars0 avg)]) w))
    by now apply deref_bound.
  unfold bind at 1. unfold lift at 1.
  destruct (max_price df) as [mx | e]; [| reflexivity].
  rewrite (bind_ok _ _ df _
             (show (([KpiCompanies 5] ++ [KpiRecommend n])
                    ++ [KpiAverage (Text Dollars0 avg)]) w))
    by now apply deref_bound.
  unfold bind at 1. unfold lift at 1.
  destruct (max_ticker df) as [tk | e]; [| reflexivity].
  rewrite emit_show, show_show. reflexivity.
Qed.

Lemma render_kpi_raise (data : ref) (e : exn) (w w' : world) :
  kpi_row data w = (Raise e, w') -> render data w = (Raise e, w').
Proof. intros H. unfold render. now apply bind_raise. Qed.

Lemma recommend_count_flags (df : DataFrame) (flags : list cell) :
  rectangular df ->
  assoc "Split_Recommendation" (columns df) = Some flags ->
  recommend_count df = Ok (length (filter (fun c => c = Str "YES") flags)).
Proof.
  intros Hrect Hf. unfold recommend_count, getitem. rewrite Hf. cbn [obind].
  unfold series_eq. cbn [s_values]. rewrite select_flags_length; [reflexivity |].
  now apply (rectangular_assoc df "Split_Recommendation").
Qed.

Lemma as_float64_text (vs : list cell) (s : string) :
  In (Str s) vs -> as_float64 vs = Raise TypeError.
Proof.
  intros Hin. unfold as_float64.
  assert (H : mapM as_num vs = None).
  { induction vs as [| v vs IH]; [destruct Hin |]. simpl.
    destruct Hin as [-> | Hin]; [reflexivity |].
    rewrite (IH Hin). now destruct (as_num v). }
  now rewrite H.
Qed.

(** ** Files that lack a column or hold text for a price *)

(** X4.  Without a Split_Recommendation column the run ends in KeyError at
    the second card, whatever else the file holds and even with no record:
    only the Companies Analyzed card is on the page. *)
Theorem missing_recommendation_column (w : world) (data : ref) (df : DataFrame) :
  heap w !! data = Some df ->
  assoc "Split_Recommendation" (columns df) = None ->
  render data w =
    (Raise (KeyError "Split_Recommendation"), show [KpiCompanies 5] w).
Proof.
  intros Hdata Hf. apply render_kpi_raise. rewrite (kpi_row_run data df w Hdata).
  unfold recommend_count, getitem. now rewrite Hf.
Qed.

(** X5.  Without a Price_USD column the run ends in KeyError at the
    average, after the Recommend Split card has been shown. *)
Theorem missing_price_column
    (w : world) (data : ref) (df : DataFrame) (flags : list cell) :
  heap w !! data = Some df -> rectangular df ->
  assoc "Split_Recommendation" (columns df) = Some flags ->
  assoc "Price_USD" (columns df) = None ->
  render data w =
    (Raise (KeyError "Price_USD"),
     show [KpiCompanies 5;
           KpiRecommend (length (filter (fun c => c = Str "YES") flags))] w).
Proof.
  intros Hdata Hrect Hf Hp. apply render_kpi_raise.
  rewrite (kpi_row_run data df w Hdata), (recommend_count_flags df flags Hrect Hf).
  unfold avg_price, getitem. now rewrite Hp.
Qed.

(** X6.  A price that is text (a cell pandas could not read as a number)
    is not rejected at load: the run ends in TypeError at the average, after
    the Recommend Split card has been shown. *)
Theorem text_price_raises_TypeError
    (w : world) (data : ref) (df : DataFrame) (flags vs : list cell) (s : string) :
  heap w !! data = Some df -> rectangular df ->
  assoc "Split_Recommendation" (columns df) = Some flags ->
  assoc "Price_USD" (columns df) = Some vs ->
  In (Str s) vs ->
  render data w =
    (Raise TypeError,
     show [KpiCompanies 5;
           KpiRecommend (length (filter (fun c => c = Str "YES") flags))] w).
Proof.
  intros Hdata Hrect Hf Hp Hin. apply render_kpi_raise.
  rewrite (kpi_row_run data df w Hdata), (recommend_count_flags df flags Hrect Hf).
  unfold avg_price, getitem. rewrite Hp. cbn [obind]. unfold mean.
  cbn [s_values]. now rewrite (as_float64_text vs s Hin).
Qed.

Lemma missing_recommendation_column_witness :
  render 0%nat (loaded no_recommendation) =
    (Raise (KeyError "Split_Recommendation"),
     show [KpiCompanies 5] (loaded no_recommendation)).
Proof.
  apply (missing_recommendation_column (loaded no_recommendation) 0%nat
           no_recommendation).
  - reflexivity.
  - reflexivity.
Defined.

Lemma missing_price_column_witness :
  render 0%nat (loaded loose_flags) =
    (Raise (KeyError "Price_USD"),
     show [KpiCompanies 5; KpiRecommend 1] (loaded loose_flags)).
Proof.
  apply (missing_price_column (loaded loose_flags) 0%nat loose_flags
           [Str "YES"; Str "yes"; Str "Y"; Num NaN; Str "YES "; Num (Fin 1)]).
  - reflexivity.
  - unfold rectangular. vm_compute. repeat constructor.
  - reflexivity.
  - reflexivity.
Defined.

Lemma text_price_raises_TypeError_witness :
  render 0%nat (loaded text_price) =
    (Raise TypeError,
     show [KpiCompanies 5; KpiRecommend 1] (loaded text_price)).
Proof.
  apply (text_price_raises_TypeError (loaded text_price) 0%nat text_price
           [Str "YES"; Str "NO"] [Str "3,584.00"; Str "62.50"] "3,584.00").
  - reflexivity.
  - unfold rectangular. vm_compute. repeat constructor.
  - reflexivity.
  - reflexivity.
  - simpl. auto.
Defined.

(** ** The comparison loop on a file that lacks a split column *)

Lemma row_get_missing (df : DataFrame) (k : string) (i : nat) :
  assoc k (columns df) = None -> row_get (row_at (columns df) i) k = Raise (KeyError k).
Proof.
  intros Hk. unfold row_get.
  assert (H : row_assoc k (row_at (columns df) i) = None).
  { induction (columns df) as [| [k' v] cs IH]; [reflexivity |].
    cbn [assoc] in Hk. cbn [row_at].
    destruct (String.eqb k k') eqn:E; [discriminate |].
    destruct (v !! i); [cbn [row_assoc]; rewrite E |]; now apply IH. }
  now rewrite H.
Qed.

(** X7.  The comparison loop reads its columns row by row: a file without
    the Price_After_10to1 column raises KeyError at the first record, and
    goes unnoticed when there is no record at all. *)
Theorem comparison_missing_split_column
    (data : DataFrame) (names p : list cell) :
  rectangular data ->
  assoc "Company" (columns data) = Some names ->
  assoc "Price_USD" (columns data) = Some p ->
  assoc "Price_After_10to1" (columns data) = None ->
  comparison_data data =
    match index data with
    | [] => Ok []
    | _ :: _ => Raise (KeyError "Price_After_10to1")
    end.
Proof.
  intros Hrect Hn Hp Ha. unfold comparison_data.
  pose proof (rectangular_assoc _ _ _ Hrect Hn) as Ln.
  pose proof (rectangular_assoc _ _ _ Hrect Hp) as Lp.
  destruct (index data) as [| l ls] eqn:Hidx.
  - unfold iterrows. now rewrite Hidx.
  - assert (Hi : 0 < length (index data)) by (rewrite Hidx; simpl; lia).
    destruct names as [| c names]; [discriminate |].
    destruct p as [| x p]; [discriminate |].
    rewrite <- (drop_0 (iterrows data)).
    rewrite (drop_S _ (l, row_at (columns data) 0) 0)
      by (apply iterrows_lookup; now rewrite Hidx).
    cbn [comparison_loop]. unfold scenarios.
    rewrite (row_get_cell data "Company" (c :: names) 0 c Hrect Hi Hn eq_refl).
    rewrite (row_get_cell data "Price_USD" (x :: p) 0 x Hrect Hi Hp eq_refl).
    cbn [obind]. now rewrite (row_get_missing data "Price_After_10to1" 0 Ha).
Qed.

Lemma comparison_missing_split_column_witness :
  comparison_data no_split_column = Raise (KeyError "Price_After_10to1").
Proof.
  apply (comparison_missing_split_column no_split_column
           [Str "Acme"] [Num (Fin 100)]).
  - unfold rectangular. vm_compute. repeat constructor.
  - reflexivity.
  - reflexivity.
  - reflexivity.
Defined.

(** ** Sorting *)

Lemma insert_by_perm (k : Q) (i : nat) (acc : list (Q * nat)) :
  Permutation (map snd (insert_by k i acc)) (i :: map snd acc).
Proof.
  induction acc as [| [k' i'] r IH]; [reflexivity |]. cbn [insert_by].
  destruct (Qle_bool k' k); cbn [map snd]; [| reflexivity].
  rewrite IH. apply perm_swap.
Qed.

Lemma insert_by_hd (k : Q) (i : nat) (acc : list (Q * nat)) (a : Q * nat) :
  key_le a (k, i) -> HdRel key_le a acc -> HdRel key_le a (insert_by k i acc).
Proof.
  intros Hk Hhd. destruct acc as [| [k' i'] r]; cbn [insert_by].
  - now constructor.
  - destruct (Qle_bool k' k); constructor; auto. now inversion Hhd.
Qed.

Lemma insert_by_sorted (k : Q) (i : nat) (acc : list (Q * nat)) :
  Sorted key_le acc -> Sorted key_le (insert_by k i acc).
Proof.
  induction acc as [| [k' i'] r IH]; intros Hs; cbn [insert_by].
  - repeat constructor.
  - inversion Hs as [| a l Hr Hhd]; subst.
    destruct (Qle_bool k' k) eqn:E.
    + constructor; [now apply IH |].
      apply insert_by_hd; [| exact Hhd]. now apply Qle_bool_iff.
    + constructor; [exact Hs |]. constructor.
      apply Qlt_le_weak. now apply Qle_bool_false.
Qed.

Lemma insert_by_entries (all : list Q) (k : Q) (i : nat) (acc : list (Q * nat)) :
  all !! i = Some k ->
  Forall (fun e => all !! snd e = Some (fst e)) acc ->
  Forall (fun e => all !! snd e = Some (fst e)) (insert_by k i acc).
Proof.
  intros Hk. induction acc as [| [k' i'] r IH]; intros Hacc; cbn [insert_by].
  - now repeat constructor.
  - apply Forall_cons in Hacc as [He Hr].
    destruct (Qle_bool k' k); repeat constructor; auto.
Qed.

(** The order computed for a column of finite prices: a rearrangement of
    the positions, each with its own price, prices ascending. *)
Lemma sort_keys_finite (all : list Q) : forall (xs : list Q) (i : nat) (acc : list (Q * nat)),
  drop i all = xs ->
  Forall (fun e => all !! snd e = Some (fst e)) acc ->
  Sorted key_le acc ->
  exists acc',
    sort_keys i (map Fin xs) acc [] = map snd acc' /\
    Forall (fun e => all !! snd e = Some (fst e)) acc' /\
    Sorted key_le acc' /\
    Permutation (map snd acc') (map snd acc ++ seq i (length xs)).
Proof.
  induction xs as [| x xs IH]; intros i acc Hdrop Hacc Hs.
  - exists acc. cbn [map sort_keys length seq]. now rewrite !app_nil_r.
  - assert (Hx : all !! i = Some x).
    { rewrite <- (Nat.add_0_r i), <- lookup_drop, Hdrop. reflexivity. }
    assert (Hdrop' : drop (S i) all = xs).
    { rewrite <- (Nat.add_1_r i), <- drop_drop, Hdrop. reflexivity. }
    destruct (IH (S i) (insert_by x i acc) Hdrop'
                (insert_by_entries all x i acc Hx Hacc)
                (insert_by_sorted x i acc Hs))
      as (acc' & Hres & Hent & Hsort & Hperm).
    exists acc'. cbn [map sort_keys]. repeat split; auto.
    rewrite Hperm, insert_by_perm. cbn [length seq].
    rewrite <- app_comm_cons. apply Permutation_middle.
Qed.

Lemma take_rows_entries (all : list Q) (acc : list (Q * nat)) :
  Forall (fun e => all !! snd e = Some (fst e)) acc ->
  take_rows (map snd acc) (prices all) = prices (map fst acc).
Proof.
  unfold take_rows, prices. induction acc as [| [k i] r IH]; intros Hacc;
    [reflexivity |].
  apply Forall_cons in Hacc as [He Hr]. cbn [map snd fst] in *.
  cbn [omap list_omap]. rewrite list_lookup_fmap, He. cbn [fmap option_fmap option_map].
  f_equal. now apply IH.
Qed.

Lemma ascending_sorted (acc : list (Q * nat)) :
  Sorted key_le acc -> ascending (prices (map fst acc)).
Proof.
  induction acc as [| [k i] r IH]; intros Hs; [exact I |].
  inversion Hs as [| a l Hr Hhd]; subst.
  destruct r as [| [k' i'] r']; [exact I |].
  cbn [map fst prices ascending]. split; [| now apply IH].
  now inversion Hhd.
Qed.

Lemma sort_keys_order (qs : list Q) :
  exists order,
    sort_keys 0 (map Fin qs) [] [] = order /\
    Permutation order (seq 0 (length qs)) /\
    ascending (take_rows order (prices qs)).
Proof.
  destruct (sort_keys_finite qs qs 0 [] (drop_0 qs) (Forall_nil_2 _) (Sorted_nil _))
    as (acc' & Hres & Hent & Hsort & Hperm).
  exists (map snd acc'). repeat split; auto.
  rewrite (take_rows_entries qs acc' Hent). now apply ascending_sorted.
Qed.

(** ** The price chart *)

Lemma new_alloc (df : DataFrame) (w : world) :
  new df w = (Ok (length (heap w)), alloc df w).
Proof. reflexivity. Qed.

Lemma alloc_lookup_new (df : DataFrame) (w : world) :
  heap (alloc df w) !! length (heap w) = Some df.
Proof. unfold alloc. cbn [heap]. now rewrite lookup_app_r, Nat.sub_diag by lia. Qed.

Lemma alloc_lookup_old (df d : DataFrame) (r : ref) (w : world) :
  heap w !! r = Some d -> heap (alloc df w) !! r = Some d.
Proof. intros H. unfold alloc. cbn [heap]. now apply lookup_app_l_Some. Qed.

Lemma lift_ok {A} (o : outcome A) (a : A) (w : world) :
  o = Ok a -> lift o w = (Ok a, w).
Proof. now intros ->. Qed.

Lemma price_chart_run
    (data : ref) (df sorted : DataFrame) (rec_ x y : Series) (text : list cell)
    (w : world) :
  heap w !! data = Some df ->
  sort_values df "Price_USD" = Ok sorted ->
  getitem sorted "Split_Recommendation" = Ok rec_ ->
  getitem sorted "Price_USD" = Ok x ->
  getitem sorted "Ticker" = Ok y ->
  format_all Dollars0 (s_values x) = Ok text ->
  price_chart data w =
    (Ok tt,
     show [PriceChart (s_values x) (s_values y) (colors rec_) text] (alloc sorted w)).
Proof.
  intros Hdata Hsort Hrec Hx Hy Htext. unfold price_chart.
  rewrite (bind_ok _ _ df w w) by now apply deref_bound.
  rewrite (bind_ok _ _ sorted w w) by now apply lift_ok.
  rewrite (bind_ok _ _ (length (heap w)) w (alloc sorted w)) by apply new_alloc.
  rewrite (bind_ok _ _ sorted _ (alloc sorted w))
    by (apply deref_bound, alloc_lookup_new).
  rewrite (bind_ok _ _ rec_ _ (alloc sorted w)) by now apply lift_ok.
  rewrite (bind_ok _ _ x _ (alloc sorted w)) by now apply lift_ok.
  rewrite (bind_ok _ _ y _ (alloc sorted w)) by now apply lift_ok.
  rewrite (bind_ok _ _ x _ (alloc sorted w)) by now apply lift_ok.
  rewrite (bind_ok _ _ text _ (alloc sorted w)) by now apply lift_ok.
  apply emit_show.
Qed.

Lemma assoc_map_values (f : list cell -> list cell) (k : string)
    (cs : list (string * list cell)) :
  assoc k (map (fun c => (fst c, f (snd c))) cs) = option_map f (assoc k cs).
Proof.
  induction cs as [| [k' v] cs IH]; [reflexivity |]. cbn [map assoc fst snd].
  now destruct (String.eqb k k').
Qed.

Lemma numeric_prices (qs : list Q) : numeric (prices qs).
Proof. unfold numeric, prices. induction qs; simpl; auto. Qed.

Lemma numeric_take_rows (order : list nat) (vs : list cell) :
  numeric vs -> numeric (take_rows order vs).
Proof.
  unfold numeric, take_rows. intros Hn.
  induction order as [| i order IH]; [reflexivity |]. cbn [omap list_omap].
  destruct (vs !! i) as [c |] eqn:E; [| exact IH]. cbn [forallb].
  rewrite IH, andb_true_r.
  rewrite forallb_forall in Hn. apply Hn, list_elem_of_In.
  eapply list_elem_of_lookup_2. exact E.
Qed.

Lemma format_all_numeric (f : fmt) (vs : list cell) :
  numeric vs -> format_all f vs = Ok (map (text_of f) vs).
Proof.
  unfold numeric. induction vs as [| c vs IH]; intros Hn; [reflexivity |].
  cbn [forallb] in Hn. apply andb_true_iff in Hn as [Hc Hn].
  cbn [format_all map]. destruct c as [x | s | g x]; try discriminate.
  cbn [format obind text_of]. now rewrite (IH Hn).
Qed.

Lemma sort_values_prices (df : DataFrame) (qs : list Q) :
  assoc "Price_USD" (columns df) = Some (prices qs) ->
  sort_values df "Price_USD" =
    Ok (mkFrame (take_rows (sort_keys 0 (map Fin qs) [] []) (index df))
          (map (fun c => (fst c, take_rows (sort_keys 0 (map Fin qs) [] []) (snd c)))
             (columns df))).
Proof.
  intros Hp. unfold sort_values, getitem. rewrite Hp. cbn [obind s_values].
  now rewrite as_float64_prices.
Qed.

Lemma price_chart_prices_run
    (w : world) (data : ref) (df : DataFrame) (qs : list Q)
    (tickers flags : list cell) :
  heap w !! data = Some df ->
  assoc "Price_USD" (columns df) = Some (prices qs) ->
  assoc "Ticker" (columns df) = Some tickers ->
  assoc "Split_Recommendation" (columns df) = Some flags ->
  price_chart data w =
    (Ok tt,
     show [price_chart_of (sort_keys 0 (map Fin qs) [] []) qs tickers flags]
       (alloc (sorted_by (sort_keys 0 (map Fin qs) [] []) df) w)).
Proof.
  intros Hdata Hp Ht Hf.
  set (order := sort_keys 0 (map Fin qs) [] []).
  apply (price_chart_run data df (sorted_by order df)
           (mkSeries (index (sorted_by order df)) (take_rows order flags))
           (mkSeries (index (sorted_by order df)) (take_rows order (prices qs)))
           (mkSeries (index (sorted_by order df)) (take_rows order tickers))).
  - exact Hdata.
  - now rewrite (sort_values_prices df qs Hp).
  - unfold getitem, sorted_by. cbn [columns]. now rewrite assoc_map_values, Hf.
  - unfold getitem, sorted_by. cbn [columns]. now rewrite assoc_map_values, Hp.
  - unfold getitem, sorted_by. cbn [columns]. now rewrite assoc_map_values, Ht.
  - cbn [s_values]. apply format_all_numeric, numeric_take_rows, numeric_prices.
Qed.

(** X8.  The price chart has its bars in ascending order of price.  The
    bars are the records rearranged: one order of the rows gives the prices,
    the tickers, the colours and the labels alike, so every bar carries the
    ticker, colour and label of the record whose price it shows.  The
    chart is drawn from a sorted copy, a new object. *)
Theorem price_chart_ascending
    (w : world) (data : ref) (df : DataFrame) (qs : list Q)
    (tickers flags : list cell) :
  heap w !! data = Some df ->
  rectangular df ->
  assoc "Price_USD" (columns df) = Some (prices qs) ->
  assoc "Ticker" (columns df) = Some tickers ->
  assoc "Split_Recommendation" (columns df) = Some flags ->
  exists order sorted,
    Permutation order (seq 0 (len df)) /\
    ascending (take_rows order (prices qs)) /\
    price_chart data w =
      (Ok tt,
       show [PriceChart (take_rows order (prices qs)) (take_rows order tickers)
               (map (fun x => if eq_str x "YES" then "#27ae60" else "#3498db")
                  (take_rows order flags))
               (map (text_of Dollars0) (take_rows order (prices qs)))]
         (alloc sorted w)).
Proof.
  intros Hdata Hrect Hp Ht Hf.
  destruct (sort_keys_order qs) as (order & Horder & Hperm & Hasc).
  pose proof (rectangular_assoc _ _ _ Hrect Hp) as Lp.
  unfold prices in Lp. rewrite length_map in Lp.
  exists order, (sorted_by order df). split; [unfold len; now rewrite <- Lp |].
  split; [exact Hasc |].
  rewrite (price_chart_prices_run w data df qs tickers flags Hdata Hp Ht Hf), Horder.
  reflexivity.
Qed.

Lemma price_chart_ascending_witness :
  exists order sorted,
    Permutation order (seq 0 (len two_companies)) /\
    ascending (take_rows order (prices [3584%Q; 625 # 10])) /\
    price_chart 0%nat (loaded two_companies) =
      (Ok tt,
       show [PriceChart (take_rows order (prices [3584%Q; 625 # 10]))
               (take_rows order [Str "AMZN"; Str "KO"])
               (map (fun x => if eq_str x "YES" then "#27ae60" else "#3498db")
                  (take_rows order [Str "YES"; Str "NO"]))
               (map (text_of Dollars0)
                  (take_rows order (prices [3584%Q; 625 # 10])))]
         (alloc sorted (loaded two_companies))).
Proof.
  apply (price_chart_ascending (loaded two_companies) 0%nat two_companies
           [3584%Q; 625 # 10] [Str "AMZN"; Str "KO"] [Str "YES"; Str "NO"]).
  - reflexivity.
  - unfold rectangular. vm_compute. repeat constructor.
  - reflexivity.
  - reflexivity.
  - reflexivity.
Defined.

(** ** The company cards *)

Lemma numeric_lookup (vs : list cell) (i : nat) (c : cell) :
  numeric vs -> vs !! i = Some c -> exists x, c = Num x.
Proof.
  unfold numeric. intros Hn Hc. rewrite forallb_forall in Hn.
  assert (Hin : In c vs) by (apply list_elem_of_In; eapply list_elem_of_lookup_2; eauto).
  specialize (Hn c Hin). destruct c; try discriminate. eauto.
Qed.

Lemma parity_even (l : nat) : Nat.eqb (l mod 2) 0 = Nat.even l.
Proof.
  destruct (Nat.even l) eqn:E.
  - apply Nat.even_spec in E. destruct E as [k ->].
    now rewrite Nat.mul_comm, Nat.Div0.mod_mul.
  - assert (Ho : Nat.odd l = true) by (now rewrite <- Nat.negb_even, E).
    apply Nat.odd_spec in Ho. destruct Ho as [k ->].
    now rewrite Nat.add_comm, Nat.mul_comm, Nat.Div0.mod_add.
Qed.

Lemma eq_str_decide {A} (c : cell) (s : string) (a b : A) :
  (if eq_str c s then a else b) = (if decide (c = Str s) then a else b).
Proof.
  destruct (decide (c = Str s)) as [Heq | Hne].
  - apply eq_str_true in Heq. now rewrite Heq.
  - destruct (eq_str c s) eqn:E; [apply eq_str_true in E; contradiction | reflexivity].
Qed.

Lemma cards_cons (idx : nat) (r : row) (rows : list (nat * row)) (c : widget)
    (cs : list widget) (w : world) :
  card idx r = Ok c ->
  (forall w', cards rows w' = (Ok tt, show cs w')) ->
  cards ((idx, r) :: rows) w = (Ok tt, show (c :: cs) w).
Proof.
  intros Hc Hrest. cbn [cards].
  rewrite (bind_ok _ _ c w w) by now apply lift_ok.
  rewrite (bind_ok _ _ tt w (show [c] w)) by apply emit_show.
  now rewrite Hrest, show_show.
Qed.

Section Cards.
Variable df : DataFrame.
Variables flags names tickers ps es ms : list cell.
Hypothesis Hrect : rectangular df.
Hypothesis Hflags : assoc "Split_Recommendation" (columns df) = Some flags.
Hypothesis Hnames : assoc "Company" (columns df) = Some names.
Hypothesis Htickers : assoc "Ticker" (columns df) = Some tickers.
Hypothesis Hps : assoc "Price_USD" (columns df) = Some ps.
Hypothesis Hes : assoc "PE_Ratio" (columns df) = Some es.
Hypothesis Hms : assoc "Market_Cap_Billions" (columns df) = Some ms.
Hypothesis Nps : numeric ps.
Hypothesis Nes : numeric es.
Hypothesis Nms : numeric ms.

Lemma card_at (i l : nat) (f n t p e m : cell) :
  index df !! i = Some l ->
  flags !! i = Some f -> names !! i = Some n -> tickers !! i = Some t ->
  ps !! i = Some p -> es !! i = Some e -> ms !! i = Some m ->
  card l (row_at (columns df) i) = Ok (card_of l f n t p e m).
Proof.
  intros Hl Hf Hn Ht Hp He Hm.
  assert (Hi : i < length (index df)) by (eapply lookup_lt_Some; eassumption).
  destruct (numeric_lookup ps i p Nps Hp) as [x ->].
  destruct (numeric_lookup es i e Nes He) as [y ->].
  destruct (numeric_lookup ms i m Nms Hm) as [z ->].
  unfold card.
  rewrite (row_get_cell df "Split_Recommendation" flags i f Hrect Hi Hflags Hf).
  rewrite (row_get_cell df "Company" names i n Hrect Hi Hnames Hn).
  rewrite (row_get_cell df "Ticker" tickers i t Hrect Hi Htickers Ht).
  rewrite (row_get_cell df "Price_USD" ps i (Num x) Hrect Hi Hps Hp).
  rewrite (row_get_cell df "PE_Ratio" es i (Num y) Hrect Hi Hes He).
  rewrite (row_get_cell df "Market_Cap_Billions" ms i (Num z) Hrect Hi Hms Hm).
  cbn [obind format]. unfold card_of. cbn [text_of].
  now rewrite parity_even, !eq_str_decide.
Qed.

Lemma cards_from (k i : nat) (w : world) :
  i + k = length (index df) ->
  cards (drop i (iterrows df)) w =
    (Ok tt,
     show (card_table (drop i (index df)) (drop i flags) (drop i names)
             (drop i tickers) (drop i ps) (drop i es) (drop i ms)) w).
Proof.
  pose proof (rectangular_assoc _ _ _ Hrect Hflags) as Lf.
  pose proof (rectangular_assoc _ _ _ Hrect Hnames) as Ln.
  pose proof (rectangular_assoc _ _ _ Hrect Htickers) as Lt.
  pose proof (rectangular_assoc _ _ _ Hrect Hps) as Lp.
  pose proof (rectangular_assoc _ _ _ Hrect Hes) as Le.
  pose proof (rectangular_assoc _ _ _ Hrect Hms) as Lm.
  revert i w. induction k as [| k IH]; intros i w Hik.
  - rewrite !drop_ge by (rewrite ?length_iterrows; lia).
    cbn [cards card_table]. unfold ret. now rewrite show_nil.
  - assert (Hi : i < length (index df)) by lia.
    destruct (lookup_lt_is_Some_2 (index df) i Hi) as [l Hl].
    destruct (lookup_lt_is_Some_2 flags i ltac:(lia)) as [f Hf].
    destruct (lookup_lt_is_Some_2 names i ltac:(lia)) as [n Hn].
    destruct (lookup_lt_is_Some_2 tickers i ltac:(lia)) as [t Ht].
    destruct (lookup_lt_is_Some_2 ps i ltac:(lia)) as [p Hp].
    destruct (lookup_lt_is_Some_2 es i ltac:(lia)) as [e He].
    destruct (lookup_lt_is_Some_2 ms i ltac:(lia)) as [m Hm].
    rewrite (drop_S _ _ _ (iterrows_lookup _ _ _ Hl)).
    rewrite (drop_S _ _ _ Hl), (drop_S _ _ _ Hf), (drop_S _ _ _ Hn),
      (drop_S _ _ _ Ht), (drop_S _ _ _ Hp), (drop_S _ _ _ He), (drop_S _ _ _ Hm).
    cbn [card_table]. apply cards_cons.
    + now apply card_at.
    + intros w'. apply IH. lia.
Qed.

Lemma company_cards_run (data : ref) (w : world) :
  heap w !! data = Some df ->
  company_cards data w =
    (Ok tt, show (card_table (index df) flags names tickers ps es ms) w).
Proof.
  intros Hdata. unfold company_cards.
  rewrite (bind_ok _ _ df w w) by now apply deref_bound.
  rewrite <- (drop_0 (iterrows df)).
  now rewrite (cards_from (length (index df)) 0).
Qed.
End Cards.

Lemma length_card_table (labels : list nat) (flags names tickers ps es ms : list cell)
    (n : nat) :
  length labels = n -> length flags = n -> length names = n ->
  length tickers = n -> length ps = n -> length es = n -> length ms = n ->
  length (card_table labels flags names tickers ps es ms) = n.
Proof.
  revert flags names tickers ps es ms n.
  induction labels as [| l labels IH];
    intros [| f flags] [| a names] [| t tickers] [| p ps] [| e es] [| m ms] n
      H1 H2 H3 H4 H5 H6 H7; simpl in *; subst; try discriminate; try reflexivity.
  f_equal. apply IH; congruence.
Qed.

Lemma lookup_card_table (labels : list nat) (flags names tickers ps es ms : list cell)
    (i l : nat) (f n t p e m : cell) :
  labels !! i = Some l ->
  flags !! i = Some f -> names !! i = Some n -> tickers !! i = Some t ->
  ps !! i = Some p -> es !! i = Some e -> ms !! i = Some m ->
  card_table labels flags names tickers ps es ms !! i = Some (card_of l f n t p e m).
Proof.
  revert labels flags names tickers ps es ms.
  induction i as [| i IH];
    intros [| l' labels] [| f' flags] [| a' names] [| t' tickers] [| p' ps]
      [| e' es] [| m' ms]; try discriminate.
  - now intros [= ->] [= ->] [= ->] [= ->] [= ->] [= ->] [= ->].
  - intros. cbn [card_table]. now apply IH.
Qed.

(** X9.  The page gets one card per record, in file order.  A card goes
    to the left column for an even row label and to the right one for an odd
    label; it is green with "SPLIT: YES" exactly when the record's flag is the
    string YES and red with "SPLIT: NO" otherwise, and it carries the record's
    own company, ticker, price, PE ratio and market cap. *)
Theorem company_cards_layout
    (w : world) (data : ref) (df : DataFrame)
    (flags names tickers ps es ms : list cell) :
  heap w !! data = Some df -> rectangular df ->
  assoc "Split_Recommendation" (columns df) = Some flags ->
  assoc "Company" (columns df) = Some names ->
  assoc "Ticker" (columns df) = Some tickers ->
  assoc "Price_USD" (columns df) = Some ps ->
  assoc "PE_Ratio" (columns df) = Some es ->
  assoc "Market_Cap_Billions" (columns df) = Some ms ->
  numeric ps -> numeric es -> numeric ms ->
  exists cs,
    company_cards data w = (Ok tt, show cs w) /\
    length cs = len df /\
    forall i l f n t p e m,
      index df !! i = Some l ->
      flags !! i = Some f -> names !! i = Some n -> tickers !! i = Some t ->
      ps !! i = Some p -> es !! i = Some e -> ms !! i = Some m ->
      cs !! i = Some (card_of l f n t p e m).
Proof.
  intros Hdata Hrect Hf Hn Ht Hp He Hm Np Ne Nm.
  exists (card_table (index df) flags names tickers ps es ms).
  split; [now apply company_cards_run |]. split.
  - apply length_card_table; auto; eapply rectangular_assoc; eassumption.
  - intros. now apply lookup_card_table.
Qed.

(** ** The detail table *)

Lemma assoc_set_column (k col : string) (vs : list cell) (d : DataFrame) :
  assoc k (columns (set_column col vs d)) =
    if String.eqb k col
    then option_map (fun _ => vs) (assoc k (columns d))
    else assoc k (columns d).
Proof.
  unfold set_column. cbn [columns].
  induction (columns d) as [| [k' v] cs IH]; [now destruct (String.eqb k col) |].
  cbn [map fst assoc].
  destruct (String.eqb k' col) eqn:E'; cbn [assoc fst snd].
  - destruct (String.eqb k k') eqn:E.
    + apply String.eqb_eq in E, E'. subst. now rewrite String.eqb_refl.
    + exact IH.
  - destruct (String.eqb k k') eqn:E; [| exact IH].
    apply String.eqb_eq in E. subst k'. now rewrite E'.
Qed.

Lemma assoc_format_in (k col : string) (f : fmt) (d : DataFrame) :
  assoc k (columns (format_in col f d)) =
    if String.eqb k col
    then option_map (map (text_of f)) (assoc k (columns d))
    else assoc k (columns d).
Proof.
  unfold format_in. destruct (assoc col (columns d)) as [vs |] eqn:E.
  - rewrite assoc_set_column. destruct (String.eqb k col) eqn:Ek; [| reflexivity].
    apply String.eqb_eq in Ek. subst k. now rewrite E.
  - destruct (String.eqb k col) eqn:Ek; [| reflexivity].
    apply String.eqb_eq in Ek. subst k. now rewrite E.
Qed.

Lemma index_format_in (col : string) (f : fmt) (d : DataFrame) :
  index (format_in col f d) = index d.
Proof. unfold format_in. now destruct (assoc col (columns d)). Qed.

Lemma names_format_in (col : string) (f : fmt) (d : DataFrame) :
  map fst (columns (format_in col f d)) = map fst (columns d).
Proof.
  unfold format_in. destruct (assoc col (columns d)) as [vs |]; [| reflexivity].
  unfold set_column. cbn [columns]. rewrite map_map. apply map_ext.
  intros [k v]. cbn [fst]. now destruct (String.eqb k col).
Qed.

Lemma store_lookup (r : ref) (d d' : DataFrame) (w : world) :
  heap w !! r = Some d -> heap (store r d' w) !! r = Some d'.
Proof.
  intros H. unfold store. cbn [heap]. apply list_lookup_insert_eq.
  eapply lookup_lt_Some. exact H.
Qed.

Lemma store_store (r : ref) (d d' : DataFrame) (w : world) :
  store r d' (store r d w) = store r d' w.
Proof. unfold store. cbn [fs cache heap screen]. now rewrite list_insert_insert_eq. Qed.

Lemma store_alloc (d d' : DataFrame) (w : world) :
  store (length (heap w)) d' (alloc d w) = alloc d' w.
Proof.
  unfold store, alloc. cbn [fs cache heap screen]. f_equal.
  rewrite insert_app_r_alt, Nat.sub_diag by lia. reflexivity.
Qed.

Lemma format_column_run (r : ref) (col : string) (f : fmt) (d : DataFrame)
    (vs : list cell) (w : world) :
  heap w !! r = Some d ->
  assoc col (columns d) = Some vs -> numeric vs ->
  format_column r col f w = (Ok tt, store r (format_in col f d) w).
Proof.
  intros Hr Hcol Hnum. unfold format_column.
  rewrite (bind_ok _ _ d w w) by now apply deref_bound.
  rewrite (bind_ok _ _ (mkSeries (index d) vs) w w)
    by (apply lift_ok; unfold getitem; now rewrite Hcol).
  rewrite (bind_ok _ _ (map (text_of f) vs) w w)
    by (apply lift_ok; now apply format_all_numeric).
  unfold setitem, store, format_in. now rewrite Hr, Hcol.
Qed.

Section Table.
Variable df : DataFrame.
Variables flags p a b m e y : list cell.
Hypothesis Hflags : assoc "Split_Recommendation" (columns df) = Some flags.
Hypothesis Hp : assoc "Price_USD" (columns df) = Some p.
Hypothesis Ha : assoc "Price_After_10to1" (columns df) = Some a.
Hypothesis Hb : assoc "Price_After_20to1" (columns df) = Some b.
Hypothesis Hm : assoc "Market_Cap_Billions" (columns df) = Some m.
Hypothesis He : assoc "PE_Ratio" (columns df) = Some e.
Hypothesis Hy : assoc "Dividend_Yield" (columns df) = Some y.
Hypothesis Np : numeric p.
Hypothesis Na : numeric a.
Hypothesis Nb : numeric b.
Hypothesis Nm : numeric m.
Hypothesis Ne : numeric e.
Hypothesis Ny : numeric y.

Lemma detail_table_run (data : ref) (w : world) :
  heap w !! data = Some df ->
  detail_table data w =
    (Ok tt,
     show [Table (display_of df) (map highlight_recommendation flags)]
       (alloc (display_of df) w)).
Proof.
  intros Hdata. unfold detail_table.
  rewrite (bind_ok _ _ df w w) by now apply deref_bound.
  rewrite (bind_ok _ _ (length (heap w)) w (alloc df w)) by apply new_alloc.
  set (r := length (heap w)). set (w1 := alloc df w).
  assert (H0 : heap w1 !! r = Some df) by apply alloc_lookup_new.
  set (d1 := format_in "Price_USD" Dollars2 df).
  set (d2 := format_in "Price_After_10to1" Dollars2 d1).
  set (d3 := format_in "Price_After_20to1" Dollars2 d2).
  set (d4 := format_in "Market_Cap_Billions" Billions1 d3).
  set (d5 := format_in "PE_Ratio" Fixed1 d4).
  set (d6 := format_in "Dividend_Yield" Percent2 d5).
  assert (S1 : format_column r "Price_USD" Dollars2 w1 = (Ok tt, store r d1 w1))
    by (apply (format_column_run r _ _ df p); auto).
  assert (H1 : heap (store r d1 w1) !! r = Some d1) by now apply (store_lookup r df).
  assert (S2 : format_column r "Price_After_10to1" Dollars2 (store r d1 w1)
               = (Ok tt, store r d2 w1)).
  { rewrite (format_column_run r _ _ d1 a); auto; [now rewrite store_store |].
    unfold d1. now rewrite assoc_format_in. }
  assert (H2 : heap (store r d2 w1) !! r = Some d2) by now apply (store_lookup r df).
  assert (S3 : format_column r "Price_After_20to1" Dollars2 (store r d2 w1)
               = (Ok tt, store r d3 w1)).
  { rewrite (format_column_run r _ _ d2 b); auto; [now rewrite store_store |].
    unfold d2, d1. now rewrite !assoc_format_in. }
  assert (H3 : heap (store r d3 w1) !! r = Some d3) by now apply (store_lookup r df).
  assert (S4 : format_column r "Market_Cap_Billions" Billions1 (store r d3 w1)
               = (Ok tt, store r d4 w1)).
  { rewrite (format_column_run r _ _ d3 m); auto; [now rewrite store_store |].
    unfold d3, d2, d1. now rewrite !assoc_format_in. }
  assert (H4 : heap (store r d4 w1) !! r = Some d4) by now apply (store_lookup r df).
  assert (S5 : format_column r "PE_Ratio" Fixed1 (store r d4 w1)
               = (Ok tt, store r d5 w1)).
  { rewrite (format_column_run r _ _ d4 e); auto; [now rewrite store_store |].
    unfold d4, d3, d2, d1. now rewrite !assoc_format_in. }
  assert (H5 : heap (store r d5 w1) !! r = Some d5) by now apply (store_lookup r df).
  assert (S6 : format_column r "Dividend_Yield" Percent2 (store r d5 w1)
               = (Ok tt, store r d6 w1)).
  { rewrite (format_column_run r _ _ d5 y); auto; [now rewrite store_store |].
    unfold d5, d4, d3, d2, d1. now rewrite !assoc_format_in. }
  assert (H6 : heap (store r d6 w1) !! r = Some d6) by now apply (store_lookup r df).
  assert (Hcols : format_columns r currency_cols Dollars2 w1 = (Ok tt, store r d3 w1)).
  { unfold currency_cols. cbn [format_columns].
    rewrite (bind_ok _ _ tt _ _ S1), (bind_ok _ _ tt _ _ S2), (bind_ok _ _ tt _ _ S3).
    reflexivity. }
  rewrite (bind_ok _ _ tt _ _ Hcols), (bind_ok _ _ tt _ _ S4),
    (bind_ok _ _ tt _ _ S5), (bind_ok _ _ tt _ _ S6).
  rewrite (bind_ok _ _ d6 _ (store r d6 w1)) by now apply deref_bound.
  rewrite (bind_ok _ _ (mkSeries (index d6) flags) _ (store r d6 w1)).
  - rewrite emit_show. cbn [s_values]. unfold w1, r. now rewrite store_alloc.
  - apply lift_ok. unfold getitem, d6, d5, d4, d3, d2, d1.
    now rewrite !assoc_format_in, Hflags.
Qed.
End Table.

Lemma display_of_cells (df : DataFrame) (k : string) (vs : list cell) :
  assoc k (columns df) = Some vs ->
  assoc k (columns (display_of df)) = Some (display_cells k vs).
Proof.
  intros Hk. unfold display_of, display_cells, display_format.
  rewrite !assoc_format_in, Hk.
  repeat match goal with
         | |- context [decide (k = ?c)] =>
             destruct (decide (k = c)) as [-> | ?]; [reflexivity |]
         end.
  repeat match goal with
         | |- context [String.eqb k ?c] =>
             destruct (String.eqb k c) eqn:?;
               [match goal with
                | H : String.eqb k c = true |- _ =>
                    apply String.eqb_eq in H; contradiction
                end |]
         end.
  reflexivity.
Qed.

Lemma company_cards_layout_witness :
  exists cs,
    company_cards 0%nat (loaded two_companies) = (Ok tt, show cs (loaded two_companies)) /\
    length cs = len two_companies /\
    forall i l f n t p e m,
      index two_companies !! i = Some l ->
      [Str "YES"; Str "NO"] !! i = Some f ->
      [Str "Amazon"; Str "Coca-Cola"] !! i = Some n ->
      [Str "AMZN"; Str "KO"] !! i = Some t ->
      prices [3584%Q; 625 # 10] !! i = Some p ->
      prices [582 # 10; 251 # 10] !! i = Some e ->
      prices [1850%Q; 270%Q] !! i = Some m ->
      cs !! i = Some (card_of l f n t p e m).
Proof.
  apply (company_cards_layout (loaded two_companies) 0%nat two_companies
           [Str "YES"; Str "NO"] [Str "Amazon"; Str "Coca-Cola"]
           [Str "AMZN"; Str "KO"] (prices [3584%Q; 625 # 10])
           (prices [582 # 10; 251 # 10]) (prices [1850%Q; 270%Q])).
  - reflexivity.
  - unfold rectangular. vm_compute. repeat constructor.
  - reflexivity.
  - reflexivity.
  - reflexivity.
  - reflexivity.
  - reflexivity.
  - reflexivity.
  - reflexivity.
  - reflexivity.
  - reflexivity.
Defined.

(** X10.  The table is a formatted copy of the data: same rows and same
    column names in the same order; the three price columns in dollars with
    two decimals, the market cap in billions with one, the PE ratio with one
    decimal, the dividend yield as a percentage, every other column as in the
    file.  Each record gets the green style exactly for the flag YES.  The
    copy is a new object; the loaded frame keeps its numbers. *)
Theorem detail_table_formats_copy
    (w : world) (data : ref) (df : DataFrame) (flags p a b m e y : list cell) :
  heap w !! data = Some df ->
  assoc "Split_Recommendation" (columns df) = Some flags ->
  assoc "Price_USD" (columns df) = Some p ->
  assoc "Price_After_10to1" (columns df) = Some a ->
  assoc "Price_After_20to1" (columns df) = Some b ->
  assoc "Market_Cap_Billions" (columns df) = Some m ->
  assoc "PE_Ratio" (columns df) = Some e ->
  assoc "Dividend_Yield" (columns df) = Some y ->
  numeric p -> numeric a -> numeric b -> numeric m -> numeric e -> numeric y ->
  exists shown,
    detail_table data w =
      (Ok tt,
       show [Table shown (map highlight_recommendation flags)] (alloc shown w)) /\
    heap (alloc shown w) !! data = Some df /\
    index shown = index df /\
    map fst (columns shown) = map fst (columns df) /\
    forall k vs, assoc k (columns df) = Some vs ->
      assoc k (columns shown) = Some (display_cells k vs).
Proof.
  intros Hdata Hf Hp Ha Hb Hm He Hy Np Na Nb Nm Ne Ny.
  exists (display_of df). split.
  { now apply (detail_table_run df flags p a b m e y). }
  split; [now apply alloc_lookup_old |].
  split; [unfold display_of; now rewrite !index_format_in |].
  split; [unfold display_of; now rewrite !names_format_in |].
  intros k vs Hk. now apply display_of_cells.
Qed.

Lemma detail_table_formats_copy_witness :
  exists shown,
    detail_table 0%nat (loaded two_companies) =
      (Ok tt,
       show [Table shown (map highlight_recommendation [Str "YES"; Str "NO"])]
         (alloc shown (loaded two_companies))) /\
    heap (alloc shown (loaded two_companies)) !! 0%nat = Some two_companies /\
    index shown = index two_companies /\
    map fst (columns shown) = map fst (columns two_companies) /\
    forall k vs, assoc k (columns two_companies) = Some vs ->
      assoc k (columns shown) = Some (display_cells k vs).
Proof.
  apply (detail_table_formats_copy (loaded two_companies) 0%nat two_companies
           [Str "YES"; Str "NO"]
           (prices [3584%Q; 625 # 10])
           (prices [3584 # 10; 625 # 100])
           (prices [1792 # 10; 3125 # 1000])
           (prices [1850%Q; 270%Q])
           (prices [582 # 10; 251 # 10])
           (prices [0%Q; 295 # 100])).
  - reflexivity.
  - reflexivity.
  - reflexivity.
  - reflexivity.
  - reflexivity.
  - reflexivity.
  - reflexivity.
  - reflexivity.
  - reflexivity.
  - reflexivity.
  - reflexivity.
  - reflexivity.
  - reflexivity.
  - reflexivity.
Defined.

(** ** The whole page *)

Lemma alloc_show (d : DataFrame) (xs : list widget) (w : world) :
  alloc d (show xs w) = show xs (alloc d w).
Proof. reflexivity. Qed.

Lemma show_lookup (xs : list widget) (r : ref) (d : DataFrame) (w : world) :
  heap w !! r = Some d -> heap (show xs w) !! r = Some d.
Proof. now intros H. Qed.

Lemma avg_price_prices (df : DataFrame) (q : Q) (qs : list Q) :
  assoc "Price_USD" (columns df) = Some (prices (q :: qs)) ->
  avg_price df =
    Ok (Fin (round64 (fsum (q :: qs) / inject_Z (Z.of_nat (length (q :: qs)))))).
Proof.
  intros Hp. unfold avg_price, getitem. rewrite Hp. cbn [obind]. unfold mean.
  cbn [s_values]. rewrite as_float64_prices. cbn [obind]. now rewrite finite_Fin.
Qed.

Lemma max_price_prices (df : DataFrame) (q : Q) (qs : list Q) :
  assoc "Price_USD" (columns df) = Some (prices (q :: qs)) ->
  max_price df = Ok (Fin (Qmaxl q qs)).
Proof.
  intros Hp. unfold max_price, getitem. rewrite Hp. cbn [obind]. unfold max.
  cbn [s_values]. rewrite as_float64_prices. cbn [obind]. now rewrite finite_Fin.
Qed.

Lemma max_ticker_prices (df : DataFrame) (qs : list Q) (tickers : list cell) :
  rectangular df -> NoDup (index df) ->
  assoc "Price_USD" (columns df) = Some (prices qs) ->
  assoc "Ticker" (columns df) = Some tickers ->
  qs <> [] ->
  exists i t, max_ticker df = Ok t /\ tickers !! i = Some t.
Proof.
  intros Hrect Hnd Hp Ht Hne.
  pose proof (rectangular_assoc _ _ _ Hrect Hp) as Lp.
  pose proof (rectangular_assoc _ _ _ Hrect Ht) as Lt.
  unfold prices in Lp. rewrite length_map in Lp.
  destruct (argmax_first qs (index df) (eq_sym Lp) Hne)
    as (i & l & q & Hres & Hl & Hq & _ & _).
  assert (Hi : i < length qs) by (eapply lookup_lt_Some; eassumption).
  destruct (lookup_lt_is_Some_2 tickers i ltac:(lia)) as [t Htk].
  exists i, t. split; [| exact Htk].
  destruct qs as [| q0 qs']; [congruence |].
  unfold max_ticker, getitem. rewrite Hp. cbn [obind]. unfold idxmax.
  cbn [s_values s_index]. rewrite as_float64_prices. cbn [prices map obind].
  change (Fin q0 :: map Fin qs') with (map Fin (q0 :: qs')). rewrite Hres.
  cbn [option_map fst]. unfold loc, getitem. rewrite Ht. cbn [obind s_values].
  now rewrite (position_lookup _ _ _ Hnd Hl), Htk.
Qed.

Section WholePage.
Variable df : DataFrame.
Variable qs : list Q.
Variables flags names tickers a b m e y : list cell.
Variable n : nat.
Variables avg mx : num.
Variable tk : cell.
Hypothesis Hrect : rectangular df.
Hypothesis Hflags : assoc "Split_Recommendation" (columns df) = Some flags.
Hypothesis Hnames : assoc "Company" (columns df) = Some names.
Hypothesis Htickers : assoc "Ticker" (columns df) = Some tickers.
Hypothesis Hp : assoc "Price_USD" (columns df) = Some (prices qs).
Hypothesis Ha : assoc "Price_After_10to1" (columns df) = Some a.
Hypothesis Hb : assoc "Price_After_20to1" (columns df) = Some b.
Hypothesis Hm : assoc "Market_Cap_Billions" (columns df) = Some m.
Hypothesis He : assoc "PE_Ratio" (columns df) = Some e.
Hypothesis Hy : assoc "Dividend_Yield" (columns df) = Some y.
Hypothesis Na : numeric a.
Hypothesis Nb : numeric b.
Hypothesis Nm : numeric m.
Hypothesis Ne : numeric e.
Hypothesis Ny : numeric y.
Hypothesis Hn : recommend_count df = Ok n.
Hypothesis Havg : avg_price df = Ok avg.
Hypothesis Hmx : max_price df = Ok mx.
Hypothesis Htk : max_ticker df = Ok tk.

Lemma render_to_cards (data : ref) (w : world) :
  heap w !! data = Some df ->
  render data w =
    bind (company_cards data)
      (fun _ => bind (detail_table data) (fun _ => emit (Markdown "footer")))
      (show (page_top n avg mx tk qs flags names tickers a b)
         (alloc (sorted_by (sort_keys 0 (map Fin qs) [] []) df) w)).
Proof.
  intros Hdata. unfold render.
  set (order := sort_keys 0 (map Fin qs) [] []).
  set (k4 := [KpiCompanies 5; KpiRecommend n; KpiAverage (Text Dollars0 avg);
              KpiHighest tk (Text Dollars0 mx)]).
  assert (S1 : kpi_row data w = (Ok tt, show k4 w)).
  { rewrite (kpi_row_run data df w Hdata), Hn, Havg, Hmx, Htk. reflexivity. }
  rewrite (bind_ok _ _ tt _ _ S1).
  set (w1 := alloc (sorted_by order df) w).
  assert (S2 : price_chart data (show k4 w)
               = (Ok tt, show (k4 ++ [price_chart_of order qs tickers flags]) w1)).
  { rewrite (price_chart_prices_run (show k4 w) data df qs tickers flags);
      auto using show_lookup.
    fold order. now rewrite alloc_show, show_show. }
  rewrite (bind_ok _ _ tt _ _ S2).
  assert (Hdata1 : heap w1 !! data = Some df) by now apply alloc_lookup_old.
  set (p2 := k4 ++ [price_chart_of order qs tickers flags]).
  set (comp := scenario_table names (prices qs) a b).
  assert (S3 : comparison_chart data (show p2 w1)
               = (Ok tt, show (p2 ++ [ComparisonChart comp]) w1)).
  { unfold comparison_chart.
    rewrite (bind_ok _ _ df _ (show p2 w1)) by now apply deref_bound, show_lookup.
    rewrite (bind_ok _ _ comp _ (show p2 w1))
      by (apply lift_ok; now apply comparison_data_table).
    now rewrite emit_show, show_show. }
  rewrite (bind_ok _ _ tt _ _ S3).
  set (p3 := p2 ++ [ComparisonChart comp]).
  rewrite (bind_ok _ _ tt _ (show (p3 ++ [Markdown "insights"]) w1))
    by now rewrite emit_show, show_show.
  reflexivity.
Qed.

Lemma render_run (data : ref) (w : world) :
  heap w !! data = Some df ->
  render data w =
    (Ok tt,
     show (page_body n avg mx tk
             (price_chart_of (sort_keys 0 (map Fin qs) [] []) qs tickers flags)
             (scenario_table names (prices qs) a b)
             (card_table (index df) flags names tickers (prices qs) e m)
             (display_of df) (map highlight_recommendation flags))
       (alloc (display_of df)
          (alloc (sorted_by (sort_keys 0 (map Fin qs) [] []) df) w))).
Proof.
  intros Hdata. rewrite (render_to_cards data w Hdata).
  set (w1 := alloc (sorted_by (sort_keys 0 (map Fin qs) [] []) df) w).
  assert (Hdata1 : heap w1 !! data = Some df) by now apply alloc_lookup_old.
  set (top := page_top n avg mx tk qs flags names tickers a b).
  set (cs := card_table (index df) flags names tickers (prices qs) e m).
  assert (S5 : company_cards data (show top w1)
               = (Ok tt, show (top ++ cs) w1)).
  { rewrite (company_cards_run df flags names tickers (prices qs) e m);
      auto using numeric_prices, show_lookup.
    now rewrite show_show. }
  rewrite (bind_ok _ _ tt _ _ S5).
  set (styles := map highlight_recommendation flags).
  assert (S6 : detail_table data (show (top ++ cs) w1)
               = (Ok tt, show ((top ++ cs) ++ [Table (display_of df) styles])
                           (alloc (display_of df) w1))).
  { rewrite (detail_table_run df flags (prices qs) a b m e y);
      auto using numeric_prices, show_lookup.
    now rewrite alloc_show, show_show. }
  rewrite (bind_ok _ _ tt _ _ S6).
  rewrite emit_show, show_show. unfold page_body, top, page_top.
  f_equal. f_equal. now rewrite <- !app_assoc.
Qed.

Lemma load_data_run (w : world) :
  cache w = Some df \/ (cache w = None /\ fs w !! csv_path = Some (Parsed df)) ->
  load_data w = (Ok (length (heap w)), alloc df (cached df w)).
Proof.
  unfold load_data, cache_data, read_csv, ret, new, bind, alloc, cached.
  intros [Hc | [Hc Hf]]; rewrite Hc; [reflexivity |]. now rewrite Hf.
Qed.

Lemma main_run (w : world) :
  cache w = Some df \/ (cache w = None /\ fs w !! csv_path = Some (Parsed df)) ->
  main w =
    (Ok tt,
     show (page_head ++
           page_body n avg mx tk
             (price_chart_of (sort_keys 0 (map Fin qs) [] []) qs tickers flags)
             (scenario_table names (prices qs) a b)
             (card_table (index df) flags names tickers (prices qs) e m)
             (display_of df) (map highlight_recommendation flags))
       (alloc (display_of df)
          (alloc (sorted_by (sort_keys 0 (map Fin qs) [] []) df)
             (alloc df (cached df w))))).
Proof.
  intros Hsrc. unfold main.
  rewrite (bind_ok _ _ tt _ _ (emit_show _ w)).
  rewrite (bind_ok _ _ tt _ (show page_head w))
    by now rewrite emit_show, show_show.
  assert (Hload : load_data (show page_head w)
                  = (Ok (length (heap w)), show page_head (alloc df (cached df w))))
    by now rewrite load_data_run.
  rewrite (bind_ok _ _ (length (heap w)) _ (show page_head (alloc df (cached df w)))).
  - rewrite render_run
      by apply show_lookup, (alloc_lookup_new df (cached df w)).
    now rewrite !alloc_show, show_show.
  - unfold try_except. now rewrite Hload.
Qed.
End WholePage.

Lemma kpi_figures (df : DataFrame) (qs : list Q) (flags tickers : list cell) :
  rectangular df -> NoDup (index df) -> qs <> [] ->
  assoc "Split_Recommendation" (columns df) = Some flags ->
  assoc "Price_USD" (columns df) = Some (prices qs) ->
  assoc "Ticker" (columns df) = Some tickers ->
  exists n avg mx tk,
    recommend_count df = Ok n /\ avg_price df = Ok avg /\
    max_price df = Ok mx /\ max_ticker df = Ok tk.
Proof.
  intros Hrect Hnd Hne Hf Hp Ht.
  destruct (max_ticker_prices df qs tickers Hrect Hnd Hp Ht Hne) as (i & tk & Htk & _).
  destruct qs as [| q qs]; [congruence |].
  eexists _, _, _, tk. split; [now apply (recommend_count_flags df flags) |].
  split; [now apply (avg_price_prices df q qs) |].
  split; [now apply (max_price_prices df q qs) | exact Htk].
Qed.

Lemma card_table_cards (labels : list nat) (flags names tickers ps es ms : list cell) :
  Forall (fun c => exists s col o t p e m r, c = Card s col o t p e m r)
    (card_table labels flags names tickers ps es ms).
Proof.
  revert flags names tickers ps es ms.
  induction labels as [| l labels IH];
    intros [| f flags] [| a names] [| t tickers] [| p ps] [| e es] [| m ms];
    cbn [card_table]; try constructor; [| apply IH].
  unfold card_of. eauto 10.
Qed.

(** X11.  A file with the nine columns, numbers in the six numeric ones,
    finite prices, distinct row labels and at least one record renders to
    the end without an exception.  Under the page head the page shows, in
    this order, the four KPI cards, the price chart, the comparison chart,
    the insights, one company card per record, the table and the footer
    (section headings and spacers are not part of the modelled page).  After
    the run the table is in the cache, the files are as they were and the
    loaded frame still holds the table of the file. *)
Theorem main_renders_whole_page
    (files : gmap string file) (df : DataFrame) (qs : list Q)
    (flags names tickers a b m e y : list cell) :
  files !! csv_path = Some (Parsed df) ->
  rectangular df -> NoDup (index df) -> qs <> [] ->
  assoc "Split_Recommendation" (columns df) = Some flags ->
  assoc "Company" (columns df) = Some names ->
  assoc "Ticker" (columns df) = Some tickers ->
  assoc "Price_USD" (columns df) = Some (prices qs) ->
  assoc "Price_After_10to1" (columns df) = Some a ->
  assoc "Price_After_20to1" (columns df) = Some b ->
  assoc "Market_Cap_Billions" (columns df) = Some m ->
  assoc "PE_Ratio" (columns df) = Some e ->
  assoc "Dividend_Yield" (columns df) = Some y ->
  numeric a -> numeric b -> numeric m -> numeric e -> numeric y ->
  exists n avg mx tk px py colours text comp_df cs shown styles w',
    main (fresh files) = (Ok tt, w') /\
    screen w' =
      page_head ++
      page_body n avg mx tk (PriceChart px py colours text) comp_df cs shown styles /\
    length cs = len df /\
    Forall (fun c => exists s col o t p e m r, c = Card s col o t p e m r) cs /\
    cache w' = Some df /\ fs w' = files /\ heap w' !! 0%nat = Some df.
Proof.
  intros Hfile Hrect Hnd Hne Hf Hn Ht Hp Ha Hb Hm He Hy Na Nb Nm Ne Ny.
  destruct (kpi_figures df qs flags tickers Hrect Hnd Hne Hf Hp Ht)
    as (n & avg & mx & tk & H1 & H2 & H3 & H4).
  exists n, avg, mx, tk. eexists _, _, _, _, _, _, _, _, _. split.
  - rewrite (main_run df qs flags names tickers a b m e y n avg mx tk
               Hrect Hf Hn Ht Hp Ha Hb Hm He Hy Na Nb Nm Ne Ny H1 H2 H3 H4
               (fresh files)) by (right; split; [reflexivity | exact Hfile]).
    reflexivity.
  - split; [unfold price_chart_of; reflexivity |].
    split.
    { apply length_card_table; auto;
        try (eapply rectangular_assoc; eassumption). }
    split; [apply card_table_cards |].
    repeat split.
Qed.

Lemma main_renders_whole_page_witness :
  exists n avg mx tk px py colours text comp_df cs shown styles w',
    main (fresh (on_disk two_companies)) = (Ok tt, w') /\
    screen w' =
      page_head ++
      page_body n avg mx tk (PriceChart px py colours text) comp_df cs shown styles /\
    length cs = len two_companies /\
    Forall (fun c => exists s col o t p e m r, c = Card s col o t p e m r) cs /\
    cache w' = Some two_companies /\ fs w' = on_disk two_companies /\
    heap w' !! 0%nat = Some two_companies.
Proof.
  apply (main_renders_whole_page (on_disk two_companies) two_companies
           [3584%Q; 625 # 10]
           [Str "YES"; Str "NO"] [Str "Amazon"; Str "Coca-Cola"]
           [Str "AMZN"; Str "KO"]
           (prices [3584 # 10; 625 # 100])
           (prices [1792 # 10; 3125 # 1000])
           (prices [1850%Q; 270%Q])
           (prices [582 # 10; 251 # 10])
           (prices [0%Q; 295 # 100])).
  - reflexivity.
  - unfold rectangular. vm_compute. repeat constructor.
  - apply (bool_decide_unpack (NoDup (index two_companies))). vm_compute. exact I.
  - discriminate.
  - reflexivity.
  - reflexivity.
  - reflexivity.
  - reflexivity.
  - reflexivity.
  - reflexivity.
  - reflexivity.
  - reflexivity.
  - reflexivity.
  - reflexivity.
  - reflexivity.
  - reflexivity.
  - reflexivity.
  - reflexivity.
Defined.

(** X12.  A second run serves the cached table: it renders to the end and
    shows the same page again, whatever has become of the file in between
    (edited, unreadable or deleted). *)
Theorem rerun_shows_same_page
    (files files' : gmap string file) (df : DataFrame) (qs : list Q)
    (flags names tickers a b m e y : list cell) :
  files !! csv_path = Some (Parsed df) ->
  rectangular df -> NoDup (index df) -> qs <> [] ->
  assoc "Split_Recommendation" (columns df) = Some flags ->
  assoc "Company" (columns df) = Some names ->
  assoc "Ticker" (columns df) = Some tickers ->
  assoc "Price_USD" (columns df) = Some (prices qs) ->
  assoc "Price_After_10to1" (columns df) = Some a ->
  assoc "Price_After_20to1" (columns df) = Some b ->
  assoc "Market_Cap_Billions" (columns df) = Some m ->
  assoc "PE_Ratio" (columns df) = Some e ->
  assoc "Dividend_Yield" (columns df) = Some y ->
  numeric a -> numeric b -> numeric m -> numeric e -> numeric y ->
  let w1 := snd (main (fresh files)) in
  let r2 := main (with_files files' w1) in
  fst r2 = Ok tt /\
  screen (snd r2) = screen w1 ++ screen w1 /\
  cache (snd r2) = Some df.
Proof.
  intros Hfile Hrect Hnd Hne Hf Hn Ht Hp Ha Hb Hm He Hy Na Nb Nm Ne Ny.
  destruct (kpi_figures df qs flags tickers Hrect Hnd Hne Hf Hp Ht)
    as (n & avg & mx & tk & H1 & H2 & H3 & H4).
  cbv zeta.
  rewrite (main_run df qs flags names tickers a b m e y n avg mx tk
             Hrect Hf Hn Ht Hp Ha Hb Hm He Hy Na Nb Nm Ne Ny H1 H2 H3 H4
             (fresh files)) by (right; split; [reflexivity | exact Hfile]).
  cbn [snd].
  rewrite (main_run df qs flags names tickers a b m e y n avg mx tk
             Hrect Hf Hn Ht Hp Ha Hb Hm He Hy Na Nb Nm Ne Ny H1 H2 H3 H4)
    by (left; reflexivity).
  repeat split.
Qed.

Lemma rerun_shows_same_page_witness :
  let w1 := snd (main (fresh (on_disk two_companies))) in
  let r2 := main (with_files ∅ w1) in
  fst r2 = Ok tt /\
  screen (snd r2) = screen w1 ++ screen w1 /\
  cache (snd r2) = Some two_companies.
Proof.
  apply (rerun_shows_same_page (on_disk two_companies) ∅ two_companies
           [3584%Q; 625 # 10]
           [Str "YES"; Str "NO"] [Str "Amazon"; Str "Coca-Cola"]
           [Str "AMZN"; Str "KO"]
           (prices [3584 # 10; 625 # 100])
           (prices [1792 # 10; 3125 # 1000])
           (prices [1850%Q; 270%Q])
           (prices [582 # 10; 251 # 10])
           (prices [0%Q; 295 # 100])).
  - reflexivity.
  - unfold rectangular. vm_compute. repeat constructor.
  - apply (bool_decide_unpack (NoDup (index two_companies))). vm_compute. exact I.
  - discriminate.
  - reflexivity.
  - reflexivity.
  - reflexivity.
  - reflexivity.
  - reflexivity.
  - reflexivity.
  - reflexivity.
  - reflexivity.
  - reflexivity.
  - reflexivity.
  - reflexivity.
  - reflexivity.
  - reflexivity.
  - reflexivity.
Defined.

(** ** The recommendation across the page *)

Lemma take_rows_seq {A} (l : list A) : forall k n,
  k + n <= length l -> take_rows (seq k n) l = take n (drop k l).
Proof.
  unfold take_rows. intros k n. revert k.
  induction n as [| n IH]; intros k Hk; [now rewrite take_0 |].
  cbn [seq omap list_omap].
  destruct (lookup_lt_is_Some_2 l k ltac:(lia)) as [x Hx]. rewrite Hx.
  rewrite (drop_S _ _ _ Hx). cbn [take]. f_equal. apply IH. lia.
Qed.

Lemma take_rows_perm {A} (order : list nat) (l : list A) :
  Permutation order (seq 0 (length l)) -> Permutation (take_rows order l) l.
Proof.
  intros Hperm. unfold take_rows. rewrite Hperm.
  change (Permutation (take_rows (seq 0 (length l)) l) l).
  rewrite take_rows_seq by lia. now rewrite drop_0, firstn_all.
Qed.

Lemma green_count (flags : list cell) :
  length (filter (fun s => s = "#27ae60")
            (map (fun x => if eq_str x "YES" then "#27ae60" else "#3498db") flags))
  = length (filter (fun c => c = Str "YES") flags).
Proof.
  induction flags as [| f flags IH]; [reflexivity |]. cbn [map].
  rewrite !filter_cons, eq_str_decide.
  destruct (decide (f = Str "YES")); simpl; now rewrite IH.
Qed.

(** X13.  The price chart agrees with the Recommend Split figure: it has
    one bar per record, and its green bars are as many as the figure. *)
Theorem green_bars_match_recommend_count
    (w : world) (data : ref) (df : DataFrame) (qs : list Q)
    (tickers flags : list cell) :
  heap w !! data = Some df ->
  rectangular df ->
  assoc "Price_USD" (columns df) = Some (prices qs) ->
  assoc "Ticker" (columns df) = Some tickers ->
  assoc "Split_Recommendation" (columns df) = Some flags ->
  exists x y marker_color text sorted,
    price_chart data w =
      (Ok tt, show [PriceChart x y marker_color text] (alloc sorted w)) /\
    length x = len df /\ length marker_color = len df /\
    recommend_count df
    = Ok (length (filter (fun s => s = "#27ae60") marker_color)).
Proof.
  intros Hdata Hrect Hp Ht Hf.
  destruct (sort_keys_order qs) as (order & Horder & Hperm & _).
  pose proof (rectangular_assoc _ _ _ Hrect Hp) as Lp.
  pose proof (rectangular_assoc _ _ _ Hrect Hf) as Lf.
  assert (Lq : length qs = length (index df))
    by (unfold prices in Lp; now rewrite length_map in Lp).
  assert (Pp : Permutation (take_rows order (prices qs)) (prices qs))
    by (apply take_rows_perm; now rewrite Lp, <- Lq).
  assert (Pf : Permutation (take_rows order flags) flags)
    by (apply take_rows_perm; now rewrite Lf, <- Lq).
  eexists _, _, _, _, _. split.
  { rewrite (price_chart_prices_run w data df qs tickers flags Hdata Hp Ht Hf).
    unfold price_chart_of. rewrite Horder. reflexivity. }
  split; [unfold len; now rewrite Pp |].
  split; [unfold len; now rewrite length_map, Pf |].
  rewrite green_count, Pf. now apply recommend_count_flags.
Qed.

Lemma green_bars_match_recommend_count_witness :
  exists x y marker_color text sorted,
    price_chart 0%nat (loaded two_companies) =
      (Ok tt,
       show [PriceChart x y marker_color text] (alloc sorted (loaded two_companies))) /\
    length x = len two_companies /\ length marker_color = len two_companies /\
    recommend_count two_companies
    = Ok (length (filter (fun s => s = "#27ae60") marker_color)).
Proof.
  apply (green_bars_match_recommend_count (loaded two_companies) 0%nat
           two_companies [3584%Q; 625 # 10] [Str "AMZN"; Str "KO"]
           [Str "YES"; Str "NO"]).
  - reflexivity.
  - unfold rectangular. vm_compute. repeat constructor.
  - reflexivity.
  - reflexivity.
  - reflexivity.
Defined.

(** ** Files that lack a later column *)

(** X14.  Without a Ticker column the maximum is found but cannot be
    named: the run ends in KeyError at the Highest Price card, after the
    first three cards have been shown. *)
Theorem missing_ticker_column
    (w : world) (data : ref) (df : DataFrame) (flags : list cell)
    (q : Q) (qs : list Q) :
  heap w !! data = Some df -> rectangular df ->
  assoc "Split_Recommendation" (columns df) = Some flags ->
  assoc "Price_USD" (columns df) = Some (prices (q :: qs)) ->
  assoc "Ticker" (columns df) = None ->
  exists avg,
    render data w =
      (Raise (KeyError "Ticker"),
       show [KpiCompanies 5;
             KpiRecommend (length (filter (fun c => c = Str "YES") flags));
             KpiAverage (Text Dollars0 (Fin avg))] w).
Proof.
  intros Hdata Hrect Hf Hp Ht. eexists. apply render_kpi_raise.
  rewrite (kpi_row_run data df w Hdata), (recommend_count_flags df flags Hrect Hf).
  rewrite (avg_price_prices df q qs Hp), (max_price_prices df q qs Hp).
  cbv zeta.
  assert (Htk : max_ticker df = Raise (KeyError "Ticker")).
  { unfold max_ticker, getitem. rewrite Hp. cbn [obind]. unfold idxmax.
    cbn [s_values s_index prices map]. 
    change (Num (Fin q) :: map (fun q0 => Num (Fin q0)) qs) with (prices (q :: qs)).
    rewrite as_float64_prices. cbn [obind]. unfold loc, getitem. now rewrite Ht. }
  now rewrite Htk.
Qed.

Lemma missing_ticker_column_witness :
  exists avg,
    render 0%nat (loaded no_ticker) =
      (Raise (KeyError "Ticker"),
       show [KpiCompanies 5; KpiRecommend 1;
             KpiAverage (Text Dollars0 (Fin avg))] (loaded no_ticker)).
Proof.
  apply (missing_ticker_column (loaded no_ticker) 0%nat no_ticker
           [Str "YES"; Str "NO"] 100%Q [40%Q]).
  - reflexivity.
  - unfold rectangular. vm_compute. repeat constructor.
  - reflexivity.
  - reflexivity.
  - reflexivity.
Defined.

Lemma cards_raise (idx : nat) (r : row) (rows : list (nat * row)) (e : exn)
    (w : world) :
  card idx r = Raise e -> cards ((idx, r) :: rows) w = (Raise e, w).
Proof.
  intros Hc. cbn [cards]. apply bind_raise. unfold lift. now rewrite Hc.
Qed.

(** X15.  A column that only the cards and the table read is missed late:
    without PE_Ratio, a file otherwise in order and with at least one record
    gets its four KPI cards, both charts and the insights, and the run ends
    in KeyError before any company card is shown. *)
Theorem missing_pe_ratio_column
    (w : world) (data : ref) (df : DataFrame) (qs : list Q)
    (flags names tickers a b : list cell) :
  heap w !! data = Some df ->
  rectangular df -> NoDup (index df) -> qs <> [] ->
  assoc "Split_Recommendation" (columns df) = Some flags ->
  assoc "Company" (columns df) = Some names ->
  assoc "Ticker" (columns df) = Some tickers ->
  assoc "Price_USD" (columns df) = Some (prices qs) ->
  assoc "Price_After_10to1" (columns df) = Some a ->
  assoc "Price_After_20to1" (columns df) = Some b ->
  assoc "PE_Ratio" (columns df) = None ->
  exists top sorted,
    render data w = (Raise (KeyError "PE_Ratio"), show top (alloc sorted w)) /\
    length top = 7 /\
    Forall (fun x => forall s c o t p e m r, x <> Card s c o t p e m r) top.
Proof.
  intros Hdata Hrect Hnd Hne Hf Hn Ht Hp Ha Hb He.
  destruct (kpi_figures df qs flags tickers Hrect Hnd Hne Hf Hp Ht)
    as (n & avg & mx & tk & H1 & H2 & H3 & H4).
  exists (page_top n avg mx tk qs flags names tickers a b),
    (sorted_by (sort_keys 0 (map Fin qs) [] []) df).
  split; [| split; [reflexivity |]].
  - rewrite (render_to_cards df qs flags names tickers a b n avg mx tk
               Hrect Hf Hn Ht Hp Ha Hb H1 H2 H3 H4 data w Hdata).
    apply bind_raise. unfold company_cards.
    rewrite (bind_ok _ _ df _ _
               (deref_bound data df _
                  (show_lookup _ _ _ _ (alloc_lookup_old _ _ _ _ Hdata)))).
    pose proof (rectangular_assoc _ _ _ Hrect Hf) as Lf.
    pose proof (rectangular_assoc _ _ _ Hrect Hn) as Ln.
    pose proof (rectangular_assoc _ _ _ Hrect Ht) as Lt.
    pose proof (rectangular_assoc _ _ _ Hrect Hp) as Lp.
    destruct qs as [| q qs']; [congruence |].
    assert (Hi : 0 < length (index df)) by (rewrite <- Lp; simpl; lia).
    destruct (lookup_lt_is_Some_2 (index df) 0 Hi) as [l Hl].
    destruct (lookup_lt_is_Some_2 flags 0 ltac:(lia)) as [f Hf0].
    destruct (lookup_lt_is_Some_2 names 0 ltac:(lia)) as [c Hc0].
    destruct (lookup_lt_is_Some_2 tickers 0 ltac:(lia)) as [t Ht0].
    rewrite <- (drop_0 (iterrows df)).
    rewrite (drop_S _ _ _ (iterrows_lookup _ _ _ Hl)).
    apply cards_raise. unfold card.
    rewrite (row_get_cell df "Split_Recommendation" flags 0 f Hrect Hi Hf Hf0).
    rewrite (row_get_cell df "Company" names 0 c Hrect Hi Hn Hc0).
    rewrite (row_get_cell df "Ticker" tickers 0 t Hrect Hi Ht Ht0).
    rewrite (row_get_cell df "Price_USD" (prices (q :: qs')) 0 (Num (Fin q))
               Hrect Hi Hp eq_refl).
    cbn [obind format]. now rewrite (row_get_missing df "PE_Ratio" 0 He).
  - unfold page_top, price_chart_of. repeat constructor; discriminate.
Qed.

Lemma missing_pe_ratio_column_witness :
  exists top sorted,
    render 0%nat (loaded no_pe_ratio) =
      (Raise (KeyError "PE_Ratio"), show top (alloc sorted (loaded no_pe_ratio))) /\
    length top = 7 /\
    Forall (fun x => forall s c o t p e m r, x <> Card s c o t p e m r) top.
Proof.
  apply (missing_pe_ratio_column (loaded no_pe_ratio) 0%nat no_pe_ratio
           [3584%Q; 625 # 10]
           [Str "YES"; Str "NO"] [Str "Amazon"; Str "Coca-Cola"]
           [Str "AMZN"; Str "KO"]
           (prices [3584 # 10; 625 # 100])
           (prices [1792 # 10; 3125 # 1000])).
  - reflexivity.
  - unfold rectangular. vm_compute. repeat constructor.
  - apply (bool_decide_unpack (NoDup (index no_pe_ratio))). vm_compute. exact I.
  - discriminate.
  - reflexivity.
  - reflexivity.
  - reflexivity.
  - reflexivity.
  - reflexivity.
  - reflexivity.
  - reflexivity.
Defined.
